(** * Payment blocking for organizations that have not finished their setup

    A shallow embedding of the payment-readiness logic of the Polar
    repository:

    - the server side ([is_payment_ready], [get_missing_steps], the
      payment-status endpoint and the guard at the head of
      [create_checkout]), written in Python in the design document;
    - the dashboard banner [OrganizationSetupBanner] (TypeScript/React);
    - the [Checkout] component (TypeScript/React).

    Python objects are records, [None]-able attributes are [option]s,
    Python truthiness ([not x]) is the class [Truthy], JavaScript values
    compared with [===] are the type [JSValue], and React output is a tree
    of [Element]s. *)

From Stdlib Require Import String List Bool ZArith Lia.
From Stdlib Require Import DecimalString.
Import ListNotations.
Local Open Scope string_scope.
Local Open Scope list_scope.
Set Warnings "-register-all".

(** ** Python truthiness *)

(** [bool(x)] as used by [not x], [x and y] and [x if c else y]. *)
Class Truthy (A : Type) := truthy : A -> bool.

(** [None] is falsy; any other value of an [Optional] has the truthiness of
    its own type. *)
#[export] Instance Truthy_option {A} `{Truthy A} : Truthy (option A) :=
  fun o => match o with
           | None => false
           | Some x => truthy x
           end.

(** ** Server-side data model *)

(** Values stored in a JSONB column. *)
Inductive Json : Type :=
| JNull
| JBool (b : bool)
| JNum (n : Z)
| JStr (s : string)
| JArr (items : list Json)
| JObj (fields : list (string * Json)).

(** A JSONB object, as the [dict] Python sees. *)
Definition JsonDict := list (string * Json).

(** A [dict] is falsy exactly when it has no key. *)
#[export] Instance Truthy_dict : Truthy JsonDict :=
  fun d => match d with
           | [] => false
           | _ :: _ => true
           end.

(** A timestamp ([datetime]); every [datetime] is truthy. *)
Record datetime := { epoch_seconds : Z }.
#[export] Instance Truthy_datetime : Truthy datetime := fun _ => true.

(** A primary or foreign key ([UUID], 128 bits); every [UUID] is truthy. *)
Record UUID := { uuid_int : N }.
#[export] Instance Truthy_UUID : Truthy UUID := fun _ => true.

(** [Organization.Status] and [Account.Status] have the same five values. *)
Inductive Status :=
| CREATED
| ONBOARDING_STARTED
| UNDER_REVIEW
| DENIED
| ACTIVE.

Definition Status_eqb (a b : Status) : bool :=
  match a, b with
  | CREATED, CREATED
  | ONBOARDING_STARTED, ONBOARDING_STARTED
  | UNDER_REVIEW, UNDER_REVIEW
  | DENIED, DENIED
  | ACTIVE, ACTIVE => true
  | _, _ => false
  end.

Inductive IdentityVerificationStatus :=
| unverified
| pending
| verified
| failed.

Definition IdentityVerificationStatus_eqb
  (a b : IdentityVerificationStatus) : bool :=
  match a, b with
  | unverified, unverified
  | pending, pending
  | verified, verified
  | failed, failed => true
  | _, _ => false
  end.

(** The Account model: the fields the design document lists. *)
Record Account := {
  account_status : Status;
  is_details_submitted : bool;
  is_charges_enabled : bool;
  is_payouts_enabled : bool
}.

(** A model instance defines neither [__bool__] nor [__len__]: truthy. *)
#[export] Instance Truthy_Account : Truthy Account := fun _ => true.

(** The Organization model. [account] is the relationship attribute and
    [account_id] its foreign key; the code tests both, so both are kept. *)
Record Organization := {
  status : Status;
  details : option JsonDict;
  details_submitted_at : option datetime;
  account_id : option UUID;
  account : option Account
}.

(** The User model. *)
Record User := {
  identity_verification_status : IdentityVerificationStatus
}.

#[export] Instance Truthy_User : Truthy User := fun _ => true.

(** The names of the setup steps [get_missing_steps] reports. *)
Definition organization_details : string := "organization_details".
Definition payout_account : string := "payout_account".
Definition payout_account_activation : string := "payout_account_activation".
Definition identity_verification : string := "identity_verification".

(** ** Server-side operations *)

(** A small state monad: a computation reads and may replace the state it
    runs in. It is used for the request handlers, whose effect on the
    entities is part of what is verified. *)
Definition State (S A : Type) : Type := S -> A * S.

Definition ret {S A} (a : A) : State S A := fun s => (a, s).

Definition bind {S A B} (m : State S A) (k : A -> State S B) : State S B :=
  fun s => let (a, s') := m s in k a s'.

(** Reading an attribute of the state. *)
Definition gets {S A} (f : S -> A) : State S A := fun s => (f s, s).

Declare Scope state_scope.
Delimit Scope state_scope with state.
Notation "x <- m ;; k" := (bind m (fun x => k))
  (at level 61, m at next level, right associativity) : state_scope.

Section Server.

(** [Account.is_payout_ready()] belongs to the existing Account model and
    is not part of the design document: it is a method that reads the
    account and answers with a [bool]. *)
Variable is_payout_ready : Account -> bool.

(** [Organization.is_payment_ready], statement by statement. *)
Definition is_payment_ready (self : Organization) : bool :=
  (* Organization must be active *)
  if negb (Status_eqb (status self) ACTIVE) then false
  (* Details must be submitted *)
  else if negb (truthy (details self))
          || negb (truthy (details_submitted_at self)) then false
  (* Must have an active payout account *)
  else if negb (truthy (account_id self))
          || negb (truthy (account self)) then false
  else
    match account self with
    | Some acc => if negb (is_payout_ready acc) then false else true
    | None => false (* not reached: [account] is truthy here *)
    end.

(** [Organization.get_missing_steps], statement by statement: [missing]
    is the list under construction and [append] adds at its end. *)
Definition get_missing_steps (self : Organization) (user : option User)
  : list string :=
  let missing : list string := [] in
  (* Check organization details *)
  let missing :=
    if negb (truthy (details self))
       || negb (truthy (details_submitted_at self))
    then missing ++ [organization_details]
    else missing in
  (* Check payout account *)
  let missing :=
    if negb (truthy (account_id self)) || negb (truthy (account self))
    then missing ++ [payout_account]
    else
      match account self with
      | Some acc =>
          if negb (is_payout_ready acc)
          then missing ++ [payout_account_activation]
          else missing
      | None => missing (* not reached: [account] is truthy here *)
      end in
  (* Check identity verification (admin user) *)
  let missing :=
    if truthy user
       && match user with
          | Some u =>
              negb (IdentityVerificationStatus_eqb
                      (identity_verification_status u) verified)
          | None => false (* not evaluated: [and] short-circuits *)
          end
    then missing ++ [identity_verification]
    else missing in
  missing.

(** *** The payment-status endpoint *)

(** The response schema. *)
Record OrganizationPaymentStatus := {
  payment_ready : bool;
  missing_steps : list string;
  organization_status : Status;
  ops_account_status : option Status;
  ops_identity_verification_status : IdentityVerificationStatus
}.

(** What a request handler runs against: the organization the route
    resolved (with its account, reached through [organization.account]),
    the authenticated user and the database session. *)
Variable AsyncSession : Type.

Record World := {
  w_organization : Organization;
  w_subject : User;
  w_session : AsyncSession
}.

(** [get_organization_payment_status]: the body of the handler. The
    session is received and never used. *)
Definition get_organization_payment_status
  : State World OrganizationPaymentStatus :=
  (organization <- gets w_organization ;;
   subject <- gets w_subject ;;
   let missing_steps := get_missing_steps organization (Some subject) in
   ret {| payment_ready := is_payment_ready organization;
          missing_steps := missing_steps;
          organization_status := status organization;
          ops_account_status :=
            if truthy (account organization)
            then match account organization with
                 | Some acc => Some (account_status acc)
                 | None => None (* not reached *)
                 end
            else None;
          ops_identity_verification_status :=
            identity_verification_status subject |})%state.

(** *** The guard of checkout creation *)

(** Exceptions the checkout service raises. *)
Inductive CheckoutError :=
| CheckoutNotAllowed (message : string).

(** A product, as far as the guard reads it. *)
Record Product := {
  product_organization : Organization
}.

Variable ProductPrice : Type.
Variable Checkout : Type.

(** A service call: it runs against the session, may change it, and ends
    with an exception or a value. *)
Definition Service (A : Type) : Type :=
  AsyncSession -> (CheckoutError + A) * AsyncSession.

Definition raise {A} (e : CheckoutError) : Service A :=
  fun session => (inl e, session).

(** "Rest of the existing logic...": the body of [create_checkout] as it
    was before the guard was added. *)
Variable rest_of_the_existing_logic : Product -> ProductPrice -> Service Checkout.

Definition create_checkout (product : Product) (price : ProductPrice)
  : Service Checkout :=
  (* Check if organization can accept payments *)
  if negb (is_payment_ready (product_organization product))
  then raise (CheckoutNotAllowed "Organization is not ready to accept payments")
  else rest_of_the_existing_logic product price.

End Server.

Arguments w_organization {AsyncSession} _.
Arguments w_subject {AsyncSession} _.
Arguments w_session {AsyncSession} _.
Arguments get_organization_payment_status is_payout_ready {AsyncSession} _.
Arguments raise {AsyncSession A} e _.
Arguments create_checkout is_payout_ready {AsyncSession ProductPrice Checkout}
  rest_of_the_existing_logic product price _.

(** ** Web client: JavaScript values and React output *)

(** The values a property read through [as any] can hold. *)
Inductive JSValue :=
| JSUndefined
| JSNull
| JSBoolean (b : bool)
| JSNumber (n : Z)
| JSString (s : string).

(** [v === false]: strict equality compares without conversion, so it
    holds for the boolean [false] only. *)
Definition strict_equals_false (v : JSValue) : bool :=
  match v with
  | JSBoolean false => true
  | _ => false
  end.

(** [a === true] for an optional boolean property. *)
Definition strict_equals_true (v : option bool) : bool :=
  match v with
  | Some true => true
  | _ => false
  end.

(** [Array.prototype.includes] on an array of strings. *)
Fixpoint includes (xs : list string) (x : string) : bool :=
  match xs with
  | [] => false
  | y :: ys => if String.eqb y x then true else includes ys x
  end.

(** [Array.prototype.findIndex]: the index of the first element that
    satisfies the predicate, [-1] when there is none. *)
Fixpoint findIndex_from {A} (p : A -> bool) (xs : list A) (i : Z) : Z :=
  match xs with
  | [] => (-1)%Z
  | x :: xs' => if p x then i else findIndex_from p xs' (i + 1)%Z
  end.

Definition findIndex {A} (p : A -> bool) (xs : list A) : Z :=
  findIndex_from p xs 0%Z.

(** [`${n}`] for a non-negative integer. *)
Definition number_to_string (n : nat) : string :=
  NilEmpty.string_of_uint (Nat.to_uint n).

(** *** The dashboard banner *)

Inductive Icon :=
| CubeIcon
| LinkIcon
| CreditCardIcon.

Record SetupStep := {
  key : string;
  label : string;
  description : string;
  href : string;
  completed : bool;
  icon : Icon
}.

(** [schemas['Organization']], as far as the components read it. *)
Record OrganizationSchema := {
  id : string;
  slug : string
}.

(** The result of the [useOrganizationPaymentStatus] query hook. *)
Record PaymentStatusQuery := {
  data : option OrganizationPaymentStatus;
  isLoading : bool
}.

(** One row of the list of steps, with what the markup branches on. *)
Record StepRow := {
  row_step : SetupStep;
  isActive : bool
}.

(** What the banner shows. The width of the progress bar and the arc of
    the progress circle ([progressPercentage], a floating-point number) and
    the class names are presentation and are left out. *)
Record SetupBannerView := {
  steps : list SetupStep;
  completedSteps : nat;
  totalSteps : nat;
  currentStepIndex : Z;
  headline : string;
  rows : list StepRow;
  (* label and link of the "Continue Setup" call to action *)
  call_to_action : option (option string * string)
}.

(** [steps[i]] on a JavaScript array: [undefined] out of range. *)
Definition array_get {A} (xs : list A) (i : Z) : option A :=
  if (i <? 0)%Z then None else nth_error xs (Z.to_nat i).

(** [rows.map((step, index) => ...)], with the index threaded. *)
Fixpoint map_rows (current : Z) (xs : list SetupStep) (index : Z)
  : list StepRow :=
  match xs with
  | [] => []
  | step :: xs' =>
      {| row_step := step;
         isActive := (index =? current)%Z && negb (completed step) |}
      :: map_rows current xs' (index + 1)%Z
  end.

(** The three steps the implemented banner lists. *)
Definition banner_steps (organization : OrganizationSchema)
  (paymentStatus : OrganizationPaymentStatus) : list SetupStep :=
  [ {| key := "create_product";
       label := "Create a Product";
       description := "Add your first product or service to start selling";
       href := "/dashboard/" ++ slug organization ++ "/products/new";
       completed :=
         negb (includes (missing_steps paymentStatus) "create_product");
       icon := CubeIcon |};
    {| key := "integrate_polar";
       label := "Integrate Polar";
       description := "Connect Polar to your platform for seamless payments";
       href := "/dashboard/" ++ slug organization ++ "/finance/account";
       completed :=
         negb (includes (missing_steps paymentStatus) "integrate_polar");
       icon := LinkIcon |};
    {| key := "complete_account_setup";
       label := "Complete Account Setup";
       description := "Finalize your payout details and verification";
       href := "/dashboard/" ++ slug organization ++ "/finance/account";
       completed :=
         negb (includes (missing_steps paymentStatus)
                 "complete_account_setup");
       icon := CreditCardIcon |} ].

(** [OrganizationSetupBanner]: [None] is the [null] the component returns
    when it renders nothing. *)
Definition OrganizationSetupBanner (organization : OrganizationSchema)
  (query : PaymentStatusQuery) : option SetupBannerView :=
  if isLoading query then None
  else
    match data query with
    | None => None (* !paymentStatus *)
    | Some paymentStatus =>
      if payment_ready paymentStatus then None
      else
        let steps := banner_steps organization paymentStatus in
        let completedSteps := length (filter completed steps) in
        let totalSteps := length steps in
        let currentStepIndex :=
          findIndex (fun step => negb (completed step)) steps in
        Some {| steps := steps;
                completedSteps := completedSteps;
                totalSteps := totalSteps;
                currentStepIndex := currentStepIndex;
                headline :=
                  if Nat.eqb completedSteps totalSteps
                  then "You're all set! Ready to accept payments."
                  else number_to_string completedSteps ++ " of "
                       ++ number_to_string totalSteps
                       ++ " steps completed to start accepting payments";
                rows := map_rows currentStepIndex steps 0%Z;
                call_to_action :=
                  if negb (currentStepIndex =? -1)%Z
                  then
                    let step := array_get steps currentStepIndex in
                    Some (option_map label step,
                          match option_map href step with
                          | Some h => if String.eqb h "" then "#" else h
                          | None => "#"
                          end)
                  else None |}
    end.

(** *** The checkout page *)

(** The components and host elements that occur in the output of
    [Checkout], each with the properties that vary. Class names, theme
    presets and the callbacks handed to the form are presentation or
    behaviour of other components and are left out. *)
Inductive Component :=
| ShadowBox
| ShadowBoxOnMd
| div
| span
| Banner (color : string)
| ExclamationCircleIcon
| OrganizationNotReadyBanner
| CheckoutProductInfo
| CheckoutProductSwitcher
| CheckoutPWYWForm
| CheckoutCard
| CheckoutForm (disabled : bool).

(** A React node: an element with its children, a text, or one of the
    values that render nothing ([false] from [cond && x], and [null]). *)
Inductive Element :=
| El (c : Component) (children : list Element)
| Text (s : string)
| Nothing.

(** The body of the [OrganizationNotReadyBanner] component. *)
Definition OrganizationNotReadyBanner_body : Element :=
  El (Banner "red")
    [ El ExclamationCircleIcon [];
      El span
        [ Text ("This organization is not yet ready to accept payments. "
                ++ "The merchant needs to complete their account setup first.") ] ].

Record CheckoutProps := {
  embed : option bool;
  theme : option string
}.

(** The checkout the [useCheckoutForm] hook provides, as far as the
    markup reads it. [organizationPaymentReady] is read through
    [(checkout as any)], so it can hold any value or be missing. *)
Record CheckoutPublic := {
  checkout_organization : OrganizationSchema;
  productPrice_amountType : string;
  organizationPaymentReady : JSValue
}.

(** [cond && element] inside markup. *)
Definition and_then (cond : bool) (e : Element) : Element :=
  if cond then e else Nothing.

(** The [Checkout] component: the tree it returns. *)
Definition Checkout (props : CheckoutProps) (checkout : CheckoutPublic)
  : Element :=
  let embed := strict_equals_true (embed props) in
  if embed then
    El ShadowBox
      [ and_then (strict_equals_false (organizationPaymentReady checkout))
          (El OrganizationNotReadyBanner []);
        El CheckoutProductInfo [];
        El CheckoutProductSwitcher [];
        and_then (String.eqb (productPrice_amountType checkout) "custom")
          (El CheckoutPWYWForm []);
        El (CheckoutForm
              (strict_equals_false (organizationPaymentReady checkout))) [] ]
  else
    let banner := Nothing in
    let banner :=
      if strict_equals_false (organizationPaymentReady checkout)
      then El OrganizationNotReadyBanner []
      else banner in
    El ShadowBoxOnMd
      [ El div
          [ banner;
            El CheckoutProductInfo [];
            El CheckoutProductSwitcher [];
            and_then (String.eqb (productPrice_amountType checkout) "custom")
              (El CheckoutPWYWForm []);
            El CheckoutCard [] ];
        El div
          [ El (CheckoutForm
                  (strict_equals_false (organizationPaymentReady checkout)))
              [] ] ].

(** All the elements of a tree, parents before children, left to right. *)
Fixpoint components (e : Element) : list Component :=
  match e with
  | El c children =>
      c :: (fix go (es : list Element) : list Component :=
              match es with
              | [] => []
              | e' :: es' => components e' ++ go es'
              end) children
  | Text _ => []
  | Nothing => []
  end.

Definition is_OrganizationNotReadyBanner (c : Component) : bool :=
  match c with
  | OrganizationNotReadyBanner => true
  | _ => false
  end.

(** How many [OrganizationNotReadyBanner] elements a tree holds. *)
Definition banner_count (e : Element) : nat :=
  length (filter is_OrganizationNotReadyBanner (components e)).

(** The [disabled] property of every [CheckoutForm] of a tree. *)
Definition checkout_forms (e : Element) : list bool :=
  flat_map (fun c => match c with
                     | CheckoutForm disabled => [disabled]
                     | _ => []
                     end) (components e).

(** ** The components as the design document proposes them *)

(** [!v]: JavaScript falsiness. [undefined], [null], [false], [0] and the
    empty string are falsy ([NaN] is not a value of [JSNumber] here). *)
Definition js_not (v : JSValue) : bool :=
  match v with
  | JSUndefined => true
  | JSNull => true
  | JSBoolean b => negb b
  | JSNumber n => (n =? 0)%Z
  | JSString s => String.eqb s ""
  end.

Module DesignDoc.

(** The [SetupStep] interface of the proposed banner. *)
Record SetupStep := {
  key : string;
  label : string;
  href : string;
  completed : bool
}.

(** One line of the list: a completed step is a check mark and its label
    struck through, any other step an empty circle and a link. *)
Inductive StepLine :=
| CheckedLabel (label : string)
| LinkTo (href : string) (label : string).

Record SetupBannerView := {
  steps : list SetupStep;
  completedSteps : nat;
  totalSteps : nat;
  title : string;
  lines : list StepLine
}.

(** The three steps of the proposed banner. *)
Definition setup_steps (organization : OrganizationSchema)
  (paymentStatus : OrganizationPaymentStatus) : list SetupStep :=
  [ {| key := "organization_details";
       label := "Submit organization details";
       href := "/dashboard/" ++ slug organization ++ "/settings";
       completed :=
         negb (includes (missing_steps paymentStatus)
                 "organization_details") |};
    {| key := "payout_account";
       label := "Create payout account";
       href := "/dashboard/" ++ slug organization ++ "/finance/account";
       completed :=
         negb (includes (missing_steps paymentStatus) "payout_account")
         && negb (includes (missing_steps paymentStatus)
                    "payout_account_activation") |};
    {| key := "identity_verification";
       label := "Verify your identity";
       href := "/settings";
       completed :=
         negb (includes (missing_steps paymentStatus)
                 "identity_verification") |} ].

Definition step_line (step : SetupStep) : StepLine :=
  if completed step then CheckedLabel (label step)
  else LinkTo (href step) (label step).

(** The proposed [OrganizationSetupBanner]. *)
Definition OrganizationSetupBanner (organization : OrganizationSchema)
  (query : PaymentStatusQuery) : option SetupBannerView :=
  if isLoading query then None
  else
    match data query with
    | None => None (* !paymentStatus *)
    | Some paymentStatus =>
      if payment_ready paymentStatus then None
      else
        let steps := setup_steps organization paymentStatus in
        let completedSteps := length (filter completed steps) in
        let totalSteps := length steps in
        Some {| steps := steps;
                completedSteps := completedSteps;
                totalSteps := totalSteps;
                title :=
                  "Complete setup to start accepting payments ("
                  ++ number_to_string completedSteps ++ "/"
                  ++ number_to_string totalSteps ++ ")";
                lines := map step_line steps |}
    end.

(** The checkout object of the design document, as far as the proposed
    check reads it: the flag is its own [organization_payment_ready]
    property (the page reads another property, of another object). *)
Record CheckoutSchema := {
  organization : OrganizationSchema;
  organization_payment_ready : JSValue
}.

(** The check proposed for the [Checkout] component: when
    [checkout.organization_payment_ready] is falsy the component returns
    the banner and the product information and nothing else; [None] means
    the component goes on to its usual output. *)
Definition checkout_not_ready_return (checkout : CheckoutSchema)
  : option Element :=
  if js_not (organization_payment_ready checkout)
  then Some (El div [ El OrganizationNotReadyBanner [];
                      El CheckoutProductInfo [] ])
  else None.

End DesignDoc.

(** ** The callbacks of the checkout page *)

(** What an awaited call can reject with: [instanceof ExpiredCheckoutError]
    tells the expired checkout from every other error. *)
Inductive JSError :=
| ExpiredCheckoutError (message : string)
| OtherError (name message : string).

Definition instanceof_ExpiredCheckoutError (error : JSError) : bool :=
  match error with
  | ExpiredCheckoutError _ => true
  | OtherError _ _ => false
  end.

Section CheckoutCallbacks.

(** Everything the hooks of the page reach and the component does not own:
    the checkout on the server, the payment provider, the router. *)
Variable Remote : Type.

(** The page as the callbacks see it: the [fullLoading] state of the
    component, how many times the component called
    [window.location.reload()], and the rest. *)
Record Page := {
  fullLoading : bool;
  reloads : nat;
  remote : Remote
}.

(** An [async] function body: it runs against the page and ends by
    throwing or by returning. What it did before throwing stays done. *)
Definition Async (A : Type) : Type := Page -> (JSError + A) * Page.

Definition async_return {A} (a : A) : Async A := fun page => (inr a, page).

Definition throw {A} (error : JSError) : Async A :=
  fun page => (inl error, page).

Definition await {A B} (m : Async A) (k : A -> Async B) : Async B :=
  fun page =>
    match m page with
    | (inl error, page') => (inl error, page')
    | (inr a, page') => k a page'
    end.

(** [try { body } catch (error) { handler }]. *)
Definition try_catch {A} (body : Async A) (handler : JSError -> Async A)
  : Async A :=
  fun page =>
    match body page with
    | (inl error, page') => handler error page'
    | (inr a, page') => (inr a, page')
    end.

Definition setFullLoading (value : bool) : Async unit :=
  fun page =>
    (inr tt, {| fullLoading := value;
                reloads := reloads page;
                remote := remote page |}).

Definition window_location_reload : Async unit :=
  fun page =>
    (inr tt, {| fullLoading := fullLoading page;
                reloads := S (reloads page);
                remote := remote page |}).

(** A call into a hook: it works on the rest of the page only. *)
Definition call {A} (f : Remote -> (JSError + A) * Remote) : Async A :=
  fun page =>
    let (result, remote') := f (remote page) in
    (result, {| fullLoading := fullLoading page;
                reloads := reloads page;
                remote := remote' |}).

Variable CheckoutUpdatePublic : Type.
Variable CheckoutConfirmStripe : Type.
Variable Stripe : Type.
Variable StripeElements : Type.

(** [CheckoutPublicConfirmed], with the one property the page reads. *)
Variable CheckoutPublicConfirmed : Type.
Variable customerSessionToken : CheckoutPublicConfirmed -> string.

(** [update] and [confirm] of [useCheckoutForm], and the function
    [useCheckoutConfirmedRedirect] returns. *)
Variable _update :
  CheckoutUpdatePublic -> Remote -> (JSError + CheckoutPublic) * Remote.
Variable _confirm :
  CheckoutConfirmStripe -> option Stripe -> option StripeElements ->
  Remote -> (JSError + CheckoutPublicConfirmed) * Remote.
Variable checkoutConfirmedRedirect :
  CheckoutPublic -> string -> Remote -> (JSError + unit) * Remote.

(** The [update] callback. *)
Definition update (data : CheckoutUpdatePublic) : Async CheckoutPublic :=
  try_catch (call (_update data))
    (fun error =>
       await (if instanceof_ExpiredCheckoutError error
              then window_location_reload
              else async_return tt)
         (fun _ => throw error)).

(** The [confirm] callback; [checkout] is the checkout of the render the
    callback was created in. *)
Definition confirm (checkout : CheckoutPublic)
  (data : CheckoutConfirmStripe) (stripe : option Stripe)
  (elements : option StripeElements) : Async CheckoutPublicConfirmed :=
  await (setFullLoading true) (fun _ =>
  await (try_catch (call (_confirm data stripe elements))
           (fun error =>
              await (if instanceof_ExpiredCheckoutError error
                     then window_location_reload
                     else async_return tt) (fun _ =>
              await (setFullLoading false) (fun _ =>
              throw error))))
    (fun confirmedCheckout =>
  await (call (checkoutConfirmedRedirect checkout
                 (customerSessionToken confirmedCheckout))) (fun _ =>
  async_return confirmedCheckout))).

(** [loading], the memoized [confirmLoading || fullLoading]. *)
Definition loading (confirmLoading : bool) (page : Page) : bool :=
  confirmLoading || fullLoading page.

End CheckoutCallbacks.

Arguments fullLoading {Remote} _.
Arguments reloads {Remote} _.
Arguments remote {Remote} _.
Arguments Build_Page {Remote} _ _ _.
Arguments async_return {Remote A} a _.
Arguments throw {Remote A} error _.
Arguments await {Remote A B} m k _.
Arguments try_catch {Remote A} body handler _.
Arguments setFullLoading {Remote} value _.
Arguments window_location_reload {Remote} _.
Arguments call {Remote A} f _.
Arguments update {Remote CheckoutUpdatePublic} _update data _.
Arguments confirm {Remote CheckoutConfirmStripe Stripe StripeElements
                   CheckoutPublicConfirmed}
  customerSessionToken _confirm checkoutConfirmedRedirect
  checkout data stripe elements _.
Arguments loading {Remote} confirmLoading page.

(** ** Vocabulary of the specification *)

(** "org.details is non-empty". *)
Definition details_non_empty (org : Organization) : Prop :=
  exists d, details org = Some d /\ d <> [].

(** "org.details_submitted_at is set". *)
Definition details_submitted (org : Organization) : Prop :=
  details_submitted_at org <> None.

(** "org has an account (both account_id and the account object), and
    account.is_payout_ready() returns true". *)
Definition has_payout_ready_account (is_payout_ready : Account -> bool)
  (org : Organization) : Prop :=
  account_id org <> None
  /\ exists acc, account org = Some acc /\ is_payout_ready acc = true.

(** The right-hand side of the specification of [is_payment_ready]. *)
Definition payment_ready_conditions (is_payout_ready : Account -> bool)
  (org : Organization) : Prop :=
  status org = ACTIVE
  /\ details_non_empty org
  /\ details_submitted org
  /\ has_payout_ready_account is_payout_ready org.

(** The step the specification expects for the payout account:
    [payout_account] when the organization has no account,
    [payout_account_activation] when it has one that is not payout-ready,
    none when it is payout-ready. *)
Definition expected_payout_step (is_payout_ready : Account -> bool)
  (org : Organization) : list string :=
  match account_id org, account org with
  | Some _, Some acc =>
      if is_payout_ready acc then [] else [payout_account_activation]
  | _, _ => [payout_account]
  end.

(** Every name a setup step can have on the server. *)
Definition step_names : list string :=
  [organization_details; payout_account; payout_account_activation;
   identity_verification].

(** Every list [get_missing_steps] can return. *)
Definition possible_missing_steps : list (list string) :=
  [ [];
    [identity_verification];
    [payout_account];
    [payout_account; identity_verification];
    [payout_account_activation];
    [payout_account_activation; identity_verification];
    [organization_details];
    [organization_details; identity_verification];
    [organization_details; payout_account];
    [organization_details; payout_account; identity_verification];
    [organization_details; payout_account_activation];
    [organization_details; payout_account_activation;
     identity_verification] ].

(** ** Sample data the statements are instantiated on *)

(** One possible [is_payout_ready]: the account is active and payouts are
    enabled. *)
Definition sample_is_payout_ready (acc : Account) : bool :=
  Status_eqb (account_status acc) ACTIVE && is_payouts_enabled acc.

Definition sample_account : Account :=
  {| account_status := ACTIVE;
     is_details_submitted := true;
     is_charges_enabled := true;
     is_payouts_enabled := true |}.

Definition sample_details : JsonDict :=
  [("about", JStr "We sell software"); ("switching", JBool false)].

(** An organization that finished every step and was activated. *)
Definition sample_ready_organization : Organization :=
  {| status := ACTIVE;
     details := Some sample_details;
     details_submitted_at := Some {| epoch_seconds := 1750000000 |};
     account_id := Some {| uuid_int := 42 |};
     account := Some sample_account |}.

(** An organization that has only been created. *)
Definition sample_new_organization : Organization :=
  {| status := CREATED;
     details := Some [];
     details_submitted_at := None;
     account_id := None;
     account := None |}.

Definition sample_verified_user : User :=
  {| identity_verification_status := verified |}.

Definition sample_pending_user : User :=
  {| identity_verification_status := pending |}.

(** A product of each of the two organizations. *)
Definition sample_ready_product : Product :=
  {| product_organization := sample_ready_organization |}.

Definition sample_new_product : Product :=
  {| product_organization := sample_new_organization |}.

(** A stand-in for the rest of [create_checkout]: the session is the log
    of what was written, the price an amount in cents and the checkout the
    amount charged. *)
Definition sample_rest_of_the_existing_logic (product : Product)
  (price : nat) : Service (list string) nat :=
  fun session => (inr price, "checkout created" :: session).

(** The payment status of the organization that has only been created,
    asked for by a user whose verification is pending. *)
Definition sample_payment_status : OrganizationPaymentStatus :=
  {| payment_ready := false;
     missing_steps :=
       get_missing_steps sample_is_payout_ready sample_new_organization
         (Some sample_pending_user);
     organization_status := CREATED;
     ops_account_status := None;
     ops_identity_verification_status := pending |}.

Definition sample_organization_schema : OrganizationSchema :=
  {| id := "1dbfc517-0bbf-4301-9ba8-555ca42b9737"; slug := "acme" |}.

Definition sample_query : PaymentStatusQuery :=
  {| data := Some sample_payment_status; isLoading := false |}.

Definition sample_embed_props : CheckoutProps :=
  {| embed := Some true; theme := Some "dark" |}.

Definition sample_page_props : CheckoutProps :=
  {| embed := None; theme := None |}.

Definition sample_blocked_checkout : CheckoutPublic :=
  {| checkout_organization := sample_organization_schema;
     productPrice_amountType := "fixed";
     organizationPaymentReady := JSBoolean false |}.

(** A checkout sent by a server that does not know the flag. *)
Definition sample_legacy_checkout : CheckoutPublic :=
  {| checkout_organization := sample_organization_schema;
     productPrice_amountType := "custom";
     organizationPaymentReady := JSUndefined |}.

(** An account whose payouts are not enabled yet, and an activated
    organization that holds it. *)
Definition sample_pending_account : Account :=
  {| account_status := ONBOARDING_STARTED;
     is_details_submitted := true;
     is_charges_enabled := false;
     is_payouts_enabled := false |}.

Definition sample_active_unfinished_organization : Organization :=
  {| status := ACTIVE;
     details := Some sample_details;
     details_submitted_at := Some {| epoch_seconds := 1750000000 |};
     account_id := Some {| uuid_int := 43 |};
     account := Some sample_pending_account |}.

(** Requests against the endpoint; the session is the log of what was
    written. *)
Definition sample_ready_world : World (list string) :=
  {| w_organization := sample_ready_organization;
     w_subject := sample_pending_user;
     w_session := [] |}.

Definition sample_new_world : World (list string) :=
  {| w_organization := sample_new_organization;
     w_subject := sample_pending_user;
     w_session := [] |}.

Definition sample_unfinished_world : World (list string) :=
  {| w_organization := sample_active_unfinished_organization;
     w_subject := sample_verified_user;
     w_session := [] |}.

Definition sample_query_of (w : World (list string)) : PaymentStatusQuery :=
  {| data := Some (fst (get_organization_payment_status
                          sample_is_payout_ready w));
     isLoading := false |}.

(** A payment status as a server that knows the keys of the implemented
    banner could send it. *)
Definition sample_integration_status : OrganizationPaymentStatus :=
  {| payment_ready := false;
     missing_steps := ["integrate_polar"; "complete_account_setup"];
     organization_status := ACTIVE;
     ops_account_status := Some ACTIVE;
     ops_identity_verification_status := verified |}.

Definition sample_integration_query : PaymentStatusQuery :=
  {| data := Some sample_integration_status; isLoading := false |}.

(** Hooks for the callbacks of the checkout page: the rest of the page is
    the log of the calls made, an update is the new amount type, a
    confirmation the customer session token to hand out. An empty update
    or token stands for a checkout that has expired. *)
Definition sample__update (data : string) (log : list string)
  : (JSError + CheckoutPublic) * list string :=
  if String.eqb data ""
  then (inl (ExpiredCheckoutError "checkout expired"), "update" :: log)
  else (inr {| checkout_organization := sample_organization_schema;
               productPrice_amountType := data;
               organizationPaymentReady := JSBoolean true |},
        "update" :: log).

Definition sample__confirm (data : string) (stripe : option unit)
  (elements : option unit) (log : list string)
  : (JSError + string) * list string :=
  if String.eqb data ""
  then (inl (ExpiredCheckoutError "checkout expired"), "confirm" :: log)
  else match stripe with
       | None => (inl (OtherError "Error" "no payment provider"),
                  "confirm" :: log)
       | Some _ => (inr data, "confirm" :: log)
       end.

Definition sample_checkoutConfirmedRedirect (checkout : CheckoutPublic)
  (token : string) (log : list string) : (JSError + unit) * list string :=
  (inr tt, String.append "redirect with " token :: log).

Definition sample_page : Page (list string) :=
  {| fullLoading := false; reloads := 0; remote := [] |}.

(** Checkouts as the design document has them: one of an organization
    that is not ready, one sent without the flag. *)
Definition sample_proposed_blocked_checkout : DesignDoc.CheckoutSchema :=
  {| DesignDoc.organization := sample_organization_schema;
     DesignDoc.organization_payment_ready := JSBoolean false |}.

Definition sample_proposed_legacy_checkout : DesignDoc.CheckoutSchema :=
  {| DesignDoc.organization := sample_organization_schema;
     DesignDoc.organization_payment_ready := JSUndefined |}.

(** ** Facts about the server side *)

Lemma Status_eqb_eq (a b : Status) : Status_eqb a b = true <-> a = b.
Proof.
  destruct a, b; simpl; split; intros H; try reflexivity; discriminate H.
Qed.

Lemma IdentityVerificationStatus_eqb_eq (a b : IdentityVerificationStatus) :
  IdentityVerificationStatus_eqb a b = true <-> a = b.
Proof.
  destruct a, b; simpl; split; intros H; try reflexivity; discriminate H.
Qed.

(** Truthiness of the attributes, in terms of their values. *)
Lemma truthy_details_iff (org : Organization) :
  truthy (details org) = true <-> details_non_empty org.
Proof.
  unfold details_non_empty.
  destruct (details org) as [[|kv d]|]; simpl; split.
  - discriminate.
  - intros (d' & E & Hne). inversion E; subst. now elim Hne.
  - intros _. exists (kv :: d). split; [reflexivity | discriminate].
  - reflexivity.
  - discriminate.
  - intros (d' & E & _). discriminate E.
Qed.

(* Case analysis on everything the two methods read. *)
Ltac organization_cases org :=
  destruct org as [st [[|kv d]|] [ts|] [aid|] [acc|]].

Ltac simpl_truthy :=
  cbn [status details details_submitted_at account_id account
       truthy Truthy_option Truthy_dict Truthy_datetime Truthy_UUID
       Truthy_Account Truthy_User negb orb andb app
       identity_verification_status] in *.

Section ServerFacts.

Variable is_payout_ready : Account -> bool.

Lemma is_payment_ready_true_iff (org : Organization) :
  is_payment_ready is_payout_ready org = true
  <-> payment_ready_conditions is_payout_ready org.
Proof.
  unfold payment_ready_conditions, details_submitted,
    has_payout_ready_account.
  rewrite <- truthy_details_iff.
  unfold is_payment_ready.
  destruct (Status_eqb (status org) ACTIVE) eqn:Est.
  - apply Status_eqb_eq in Est.
    organization_cases org; simpl_truthy; simpl;
      try (split; [discriminate | ]);
      try (intros (_ & H1 & H2 & H3 & acc' & H4 & H5);
           solve [discriminate | now elim H2 | now elim H3]).
    destruct (is_payout_ready acc) eqn:Eacc; simpl; split.
    + intros _. repeat split; try assumption; try discriminate.
      exists acc. split; [reflexivity | assumption].
    + reflexivity.
    + discriminate.
    + intros (_ & _ & _ & _ & acc' & H4 & H5).
      inversion H4; subst. congruence.
  - simpl. split; [discriminate | ].
    intros (H & _). apply Status_eqb_eq in H. congruence.
Qed.

(** **** C1
    For every organization, [is_payment_ready] returns [true] if and only
    if the status is [ACTIVE], the details are non-empty, the submission
    time is set, the organization has an account (foreign key and object)
    and the account is payout-ready; in every other case it returns
    [false]. *)
Theorem is_payment_ready_spec (org : Organization) :
  (is_payment_ready is_payout_ready org = true
   <-> payment_ready_conditions is_payout_ready org)
  /\ (is_payment_ready is_payout_ready org = false
      <-> ~ payment_ready_conditions is_payout_ready org).
Proof.
  split; [apply is_payment_ready_true_iff | ].
  rewrite <- is_payment_ready_true_iff.
  destruct (is_payment_ready is_payout_ready org); split; intros H;
    try reflexivity; try discriminate.
  now elim H.
Qed.

(** The list [get_missing_steps] returns, as three consecutive parts. *)
Lemma get_missing_steps_parts (org : Organization) (user : option User) :
  get_missing_steps is_payout_ready org user
  = (if truthy (details org) && truthy (details_submitted_at org)
     then [] else [organization_details])
    ++ expected_payout_step is_payout_ready org
    ++ (match user with
        | Some u =>
            if IdentityVerificationStatus_eqb
                 (identity_verification_status u) verified
            then [] else [identity_verification]
        | None => []
        end).
Proof.
  unfold get_missing_steps, expected_payout_step.
  organization_cases org; destruct user as [u|]; simpl_truthy;
    try destruct (is_payout_ready acc);
    try destruct (IdentityVerificationStatus_eqb
                    (identity_verification_status u) verified);
    reflexivity.
Qed.

Lemma expected_payout_step_cases (org : Organization) :
  expected_payout_step is_payout_ready org = []
  \/ expected_payout_step is_payout_ready org = [payout_account]
  \/ expected_payout_step is_payout_ready org = [payout_account_activation].
Proof.
  unfold expected_payout_step.
  destruct (account_id org), (account org) as [acc|]; auto.
  destruct (is_payout_ready acc); auto.
Qed.

(** Every element of the result is the name of a setup step. *)
Lemma get_missing_steps_in_step_names (org : Organization)
  (user : option User) :
  Forall (fun step => In step step_names)
    (get_missing_steps is_payout_ready org user).
Proof.
  assert (Hone : forall step, In step step_names ->
                   Forall (fun step => In step step_names) [step]).
  { intros step H. constructor; [exact H | constructor]. }
  rewrite get_missing_steps_parts.
  apply Forall_app; split; [ | apply Forall_app; split].
  - destruct (truthy (details org) && truthy (details_submitted_at org));
      [constructor | apply Hone; unfold step_names; simpl; tauto].
  - destruct (expected_payout_step_cases org) as [E | [E | E]]; rewrite E;
      [constructor | | ]; apply Hone; unfold step_names; simpl; tauto.
  - destruct user as [u|]; [ | constructor].
    destruct (IdentityVerificationStatus_eqb
                (identity_verification_status u) verified);
      [constructor | apply Hone; unfold step_names; simpl; tauto].
Qed.

(** **** C3
    [get_missing_steps] returns its elements in the fixed order
    [organization_details], then exactly one of [payout_account] (no
    account) and [payout_account_activation] (an account that is not
    payout-ready) or neither (a payout-ready account), then
    [identity_verification]; no element is repeated and no other string
    occurs. *)
Theorem get_missing_steps_fixed_order (org : Organization)
  (user : option User) :
  (exists with_details with_identity : bool,
      get_missing_steps is_payout_ready org user
      = (if with_details then [organization_details] else [])
        ++ expected_payout_step is_payout_ready org
        ++ (if with_identity then [identity_verification] else []))
  /\ NoDup (get_missing_steps is_payout_ready org user)
  /\ Forall (fun step => In step step_names)
       (get_missing_steps is_payout_ready org user).
Proof.
  split; [ | split; [ | apply get_missing_steps_in_step_names]];
    rewrite get_missing_steps_parts.
  all: set (a := truthy (details org) && truthy (details_submitted_at org)).
  all: set (c := match user with
                 | Some u =>
                     IdentityVerificationStatus_eqb
                       (identity_verification_status u) verified
                 | None => true
                 end).
  all: replace (match user with
                | Some u =>
                    if IdentityVerificationStatus_eqb
                         (identity_verification_status u) verified
                    then [] else [identity_verification]
                | None => []
                end)
         with (if c then [] else [identity_verification])
         by (subst c; destruct user; reflexivity).
  - exists (negb a), (negb c). destruct a, c; reflexivity.
  - destruct (expected_payout_step_cases org) as [E | [E | E]];
      rewrite E; destruct a, c; simpl;
      repeat (constructor; [simpl; intuition discriminate | ]);
      constructor.
Qed.

(** **** C4
    The result of [get_missing_steps] contains [identity_verification] if
    and only if the identity verification status of the user is not
    [verified]. *)
Theorem identity_verification_missing_iff (org : Organization) (user : User) :
  In identity_verification
     (get_missing_steps is_payout_ready org (Some user))
  <-> identity_verification_status user <> verified.
Proof.
  rewrite get_missing_steps_parts.
  rewrite <- IdentityVerificationStatus_eqb_eq.
  destruct (IdentityVerificationStatus_eqb
              (identity_verification_status user) verified).
  - split; [ | intros H; now elim H].
    intros H. exfalso.
    rewrite app_nil_r in H. apply in_app_or in H.
    destruct H as [H | H].
    + destruct (truthy (details org) && truthy (details_submitted_at org));
        simpl in H; intuition discriminate.
    + destruct (expected_payout_step_cases org) as [E | [E | E]];
        rewrite E in H; simpl in H; intuition discriminate.
  - split; [discriminate | ].
    intros _. apply in_or_app. right. apply in_or_app. right.
    now left.
Qed.

(** Without a user (the guard [if user and ...] fails) the step is never
    reported. *)
Lemma identity_verification_not_missing_without_user (org : Organization) :
  ~ In identity_verification (get_missing_steps is_payout_ready org None).
Proof.
  rewrite get_missing_steps_parts, app_nil_r. intros H.
  apply in_app_or in H. destruct H as [H | H].
  - destruct (truthy (details org) && truthy (details_submitted_at org));
      simpl in H; intuition discriminate.
  - destruct (expected_payout_step_cases org) as [E | [E | E]];
      rewrite E in H; simpl in H; intuition discriminate.
Qed.

(** A payment-ready organization has nothing left to do on its own side. *)
Lemma payment_ready_missing_steps (org : Organization) (user : option User) :
  is_payment_ready is_payout_ready org = true ->
  get_missing_steps is_payout_ready org user
  = match user with
    | Some u =>
        if IdentityVerificationStatus_eqb
             (identity_verification_status u) verified
        then [] else [identity_verification]
    | None => []
    end.
Proof.
  rewrite get_missing_steps_parts.
  unfold is_payment_ready, expected_payout_step.
  destruct (Status_eqb (status org) ACTIVE); [ | discriminate].
  organization_cases org; simpl_truthy; simpl; try discriminate.
  destruct (is_payout_ready acc); [reflexivity | discriminate].
Qed.

(** **** C7
    If [is_payment_ready] holds of an organization, then
    [get_missing_steps] reports none of [organization_details],
    [payout_account] and [payout_account_activation]: every step it still
    reports is [identity_verification]. *)
Theorem payment_ready_only_identity_missing (org : Organization)
  (user : option User) :
  is_payment_ready is_payout_ready org = true ->
  ~ In organization_details (get_missing_steps is_payout_ready org user)
  /\ ~ In payout_account (get_missing_steps is_payout_ready org user)
  /\ ~ In payout_account_activation
         (get_missing_steps is_payout_ready org user)
  /\ (forall step, In step (get_missing_steps is_payout_ready org user) ->
                   step = identity_verification).
Proof.
  intros Hready. rewrite (payment_ready_missing_steps _ _ Hready).
  assert (Hshape :
            forall l : list string,
              l = [] \/ l = [identity_verification] ->
              ~ In organization_details l
              /\ ~ In payout_account l
              /\ ~ In payout_account_activation l
              /\ (forall step, In step l -> step = identity_verification)).
  { intros l [-> | ->]; simpl.
    - repeat (split; [tauto | ]). intros step [].
    - repeat (split; [intros [H | []]; discriminate H | ]).
      intros step [H | []]. now symmetry. }
  apply Hshape.
  destruct user as [u|]; [ | now left].
  destruct (IdentityVerificationStatus_eqb
              (identity_verification_status u) verified); auto.
Qed.

(** [get_missing_steps] never reads the status of the organization. *)
Lemma get_missing_steps_ignores_status (org : Organization) (st : Status)
  (user : option User) :
  get_missing_steps is_payout_ready
    {| status := st;
       details := details org;
       details_submitted_at := details_submitted_at org;
       account_id := account_id org;
       account := account org |} user
  = get_missing_steps is_payout_ready org user.
Proof. destruct org; reflexivity. Qed.

(** [is_payment_ready] requires the status [ACTIVE]. *)
Lemma not_active_not_payment_ready (org : Organization) :
  status org <> ACTIVE -> is_payment_ready is_payout_ready org = false.
Proof.
  intros H.
  destruct (is_payment_ready is_payout_ready org) eqn:E; [ | reflexivity].
  apply is_payment_ready_true_iff in E. destruct E as (Hst & _).
  contradiction.
Qed.

(** **** C8
    An empty list of missing steps does not imply payment readiness: as
    soon as some account is payout-ready, there are an organization and a
    verified user for which [get_missing_steps] returns the empty list and
    [is_payment_ready] returns [false]. The organization only differs from
    a payment-ready one in its status. *)
Theorem empty_missing_steps_not_payment_ready (acc : Account) :
  is_payout_ready acc = true ->
  exists (org : Organization) (user : User),
    identity_verification_status user = verified
    /\ status org <> ACTIVE
    /\ get_missing_steps is_payout_ready org (Some user) = []
    /\ is_payment_ready is_payout_ready org = false.
Proof.
  intros Hacc.
  exists {| status := UNDER_REVIEW;
            details := Some sample_details;
            details_submitted_at := Some {| epoch_seconds := 0 |};
            account_id := Some {| uuid_int := 1 |};
            account := Some acc |}.
  exists sample_verified_user.
  split; [reflexivity | ]. split; [discriminate | ]. split.
  - rewrite get_missing_steps_parts. unfold expected_payout_step.
    simpl. rewrite Hacc. reflexivity.
  - apply not_active_not_payment_ready. discriminate.
Qed.

(** The assumption of the previous theorem cannot be dropped: when no
    account is ever payout-ready, every organization has a payout step
    missing. *)
Lemma no_payout_ready_account_always_missing (org : Organization)
  (user : option User) :
  (forall acc, is_payout_ready acc = false) ->
  get_missing_steps is_payout_ready org user <> [].
Proof.
  intros Hnone. rewrite get_missing_steps_parts.
  unfold expected_payout_step.
  destruct (truthy (details org) && truthy (details_submitted_at org));
    [ | discriminate].
  destruct (account_id org), (account org) as [acc|];
    try rewrite Hnone; discriminate.
Qed.

Section Handlers.

Variable AsyncSession : Type.

(** **** C5
    The payment-status endpoint returns the computed values:
    [payment_ready] is [is_payment_ready] of the organization,
    [missing_steps] is [get_missing_steps] of the organization and the
    requesting user, [organization_status] and
    [identity_verification_status] are the raw statuses, and
    [account_status] is the status of the account when there is one and
    [None] otherwise. *)
Theorem payment_status_response (w : World AsyncSession) :
  let response := fst (get_organization_payment_status is_payout_ready w) in
  payment_ready response
  = is_payment_ready is_payout_ready (w_organization w)
  /\ missing_steps response
     = get_missing_steps is_payout_ready (w_organization w)
         (Some (w_subject w))
  /\ organization_status response = status (w_organization w)
  /\ ops_identity_verification_status response
     = identity_verification_status (w_subject w)
  /\ ops_account_status response
     = match account (w_organization w) with
       | Some acc => Some (account_status acc)
       | None => None
       end.
Proof.
  unfold get_organization_payment_status, bind, gets, ret. simpl.
  repeat split.
  destruct (account (w_organization w)); reflexivity.
Qed.

(** **** C6
    The payment-status endpoint is a pure read: handling a request leaves
    the organization, its account, the user and the session as they
    were, and a second identical request gets the same response. *)
Theorem payment_status_pure_read (w : World AsyncSession) :
  snd (get_organization_payment_status is_payout_ready w) = w
  /\ (let (first, w1) := get_organization_payment_status is_payout_ready w in
      let (second, w2) := get_organization_payment_status is_payout_ready w1 in
      second = first /\ w2 = w).
Proof.
  unfold get_organization_payment_status, bind, gets, ret. simpl.
  repeat split.
Qed.

Variable ProductPrice : Type.
Variable Checkout : Type.
Variable rest_of_the_existing_logic :
  Product -> ProductPrice -> Service AsyncSession Checkout.

(** **** C2
    When the organization of the product is not payment-ready,
    [create_checkout] raises [CheckoutNotAllowed] at once: the session is
    as it was and nothing of the rest of the logic has run, whatever that
    logic is. When the organization is payment-ready the guard raises
    nothing and the call is the rest of the logic. *)
Theorem create_checkout_fails_fast (product : Product) (price : ProductPrice)
  (session : AsyncSession) :
  (is_payment_ready is_payout_ready (product_organization product) = false ->
   create_checkout is_payout_ready rest_of_the_existing_logic
     product price session
   = (inl (CheckoutNotAllowed "Organization is not ready to accept payments"),
      session))
  /\ (is_payment_ready is_payout_ready (product_organization product) = true ->
      create_checkout is_payout_ready rest_of_the_existing_logic
        product price session
      = rest_of_the_existing_logic product price session).
Proof.
  unfold create_checkout, raise.
  split; intros H; rewrite H; reflexivity.
Qed.

End Handlers.

End ServerFacts.

(** ** Facts about the web client *)

Lemma includes_In (xs : list string) (x : string) :
  includes xs x = true <-> In x xs.
Proof.
  induction xs as [|y ys IH]; simpl.
  - split; [discriminate | tauto].
  - destruct (String.eqb_spec y x) as [-> | Hne].
    + split; auto.
    + rewrite IH. split; [now right | ].
      intros [H | H]; [contradiction | assumption].
Qed.

Lemma findIndex_from_none {A} (p : A -> bool) (xs : list A) (i : Z) :
  Forall (fun x => p x = false) xs -> findIndex_from p xs i = (-1)%Z.
Proof.
  intros Hall. revert i.
  induction Hall as [|x xs Hx _ IH]; intros i; simpl.
  - reflexivity.
  - rewrite Hx. apply IH.
Qed.

(** The keys the banner looks for in [missing_steps]. *)
Lemma banner_step_keys (organization : OrganizationSchema)
  (paymentStatus : OrganizationPaymentStatus) :
  map key (banner_steps organization paymentStatus)
  = ["create_product"; "integrate_polar"; "complete_account_setup"].
Proof. reflexivity. Qed.

(** A step of the banner is completed when its key is not in
    [missing_steps]. *)
Lemma banner_steps_completed (organization : OrganizationSchema)
  (paymentStatus : OrganizationPaymentStatus) :
  map completed (banner_steps organization paymentStatus)
  = map (fun k => negb (includes (missing_steps paymentStatus) k))
      (map key (banner_steps organization paymentStatus)).
Proof. reflexivity. Qed.

(** No key of the banner is a name of a server-side step. *)
Lemma banner_keys_are_not_step_names (k : string) :
  In k ["create_product"; "integrate_polar"; "complete_account_setup"] ->
  ~ In k step_names.
Proof.
  unfold step_names. simpl.
  intros [<- | [<- | [<- | []]]] H;
    repeat (destruct H as [H | H]; [discriminate H | ]); exact H.
Qed.

(** When none of the three keys is in [missing_steps], every step of the
    banner is completed and there is no current step. *)
Lemma banner_steps_without_keys (organization : OrganizationSchema)
  (paymentStatus : OrganizationPaymentStatus) :
  (forall k,
      In k (map key (banner_steps organization paymentStatus)) ->
      ~ In k (missing_steps paymentStatus)) ->
  Forall (fun step => completed step = true)
    (banner_steps organization paymentStatus)
  /\ findIndex (fun step => negb (completed step))
       (banner_steps organization paymentStatus) = (-1)%Z.
Proof.
  intros Hkeys.
  assert (Hall : Forall (fun step => completed step = true)
                   (banner_steps organization paymentStatus)).
  { assert (Hno : forall k,
               In k (map key (banner_steps organization paymentStatus)) ->
               negb (includes (missing_steps paymentStatus) k) = true).
    { intros k Hk. apply negb_true_iff.
      destruct (includes (missing_steps paymentStatus) k) eqn:E;
        [ | reflexivity].
      apply includes_In in E. now apply Hkeys in Hk. }
    unfold banner_steps in *. simpl in Hno.
    repeat (constructor; [simpl; apply Hno; tauto | ]). constructor. }
  split; [exact Hall | ].
  apply findIndex_from_none.
  eapply Forall_impl; [ | exact Hall].
  intros step Hc. simpl in Hc. rewrite Hc. reflexivity.
Qed.

(** **** C9
    The dashboard banner has three steps, with the keys [create_product],
    [integrate_polar] and [complete_account_setup], and each step is
    completed when its own key is not in [missing_steps]. These keys are
    none of the values [get_missing_steps] can produce. So for a payment
    status whose [missing_steps] comes from [get_missing_steps], each of
    the three steps of the banner is completed and the index of the first
    incomplete step is [-1]; this also holds in the banner as rendered
    (three of three steps completed), which is only rendered when
    [payment_ready] is [false]. *)
Theorem setup_banner_steps_always_completed
  (is_payout_ready : Account -> bool) (org : Organization)
  (user : option User) (organization : OrganizationSchema)
  (paymentStatus : OrganizationPaymentStatus) :
  missing_steps paymentStatus = get_missing_steps is_payout_ready org user ->
  map key (banner_steps organization paymentStatus)
  = ["create_product"; "integrate_polar"; "complete_account_setup"]
  /\ (forall anyStatus : OrganizationPaymentStatus,
        map completed (banner_steps organization anyStatus)
        = map (fun k => negb (includes (missing_steps anyStatus) k))
            ["create_product"; "integrate_polar"; "complete_account_setup"])
  /\ (forall k,
        In k ["create_product"; "integrate_polar"; "complete_account_setup"] ->
        ~ In k (missing_steps paymentStatus))
  /\ map completed (banner_steps organization paymentStatus)
     = [true; true; true]
  /\ Forall (fun step => completed step = true)
       (banner_steps organization paymentStatus)
  /\ findIndex (fun step => negb (completed step))
       (banner_steps organization paymentStatus) = (-1)%Z
  /\ (forall query view,
         data query = Some paymentStatus ->
         OrganizationSetupBanner organization query = Some view ->
         payment_ready paymentStatus = false
         /\ steps view = banner_steps organization paymentStatus
         /\ Forall (fun step => completed step = true) (steps view)
         /\ completedSteps view = 3
         /\ totalSteps view = 3
         /\ currentStepIndex view = (-1)%Z).
Proof.
  intros Hsteps.
  assert (Hkeys : forall k,
             In k ["create_product"; "integrate_polar";
                   "complete_account_setup"] ->
             ~ In k (missing_steps paymentStatus)).
  { intros k Hk Hin. rewrite Hsteps in Hin.
    pose proof (get_missing_steps_in_step_names is_payout_ready org user)
      as Hnames.
    rewrite Forall_forall in Hnames.
    exact (banner_keys_are_not_step_names k Hk (Hnames k Hin)). }
  destruct (banner_steps_without_keys organization paymentStatus Hkeys)
    as (Hall & Hidx).
  assert (Hno : forall k,
             In k ["create_product"; "integrate_polar";
                   "complete_account_setup"] ->
             negb (includes (missing_steps paymentStatus) k) = true).
  { intros k Hk. apply negb_true_iff.
    destruct (includes (missing_steps paymentStatus) k) eqn:E;
      [ | reflexivity].
    apply includes_In in E. now apply Hkeys in Hk. }
  assert (E1 : negb (includes (missing_steps paymentStatus) "create_product")
               = true) by (apply Hno; simpl; tauto).
  assert (E2 : negb (includes (missing_steps paymentStatus) "integrate_polar")
               = true) by (apply Hno; simpl; tauto).
  assert (E3 : negb (includes (missing_steps paymentStatus)
                       "complete_account_setup") = true)
    by (apply Hno; simpl; tauto).
  assert (Hflags : map completed (banner_steps organization paymentStatus)
                   = [true; true; true]).
  { unfold banner_steps. simpl. rewrite E1, E2, E3. reflexivity. }
  split; [reflexivity | ]. split; [intros anyStatus; reflexivity | ].
  split; [exact Hkeys | ]. split; [exact Hflags | ].
  split; [exact Hall | ]. split; [exact Hidx | ].
  intros query view Hdata Hview.
  unfold OrganizationSetupBanner in Hview.
  destruct (isLoading query); [discriminate | ].
  rewrite Hdata in Hview.
  destruct (payment_ready paymentStatus); [discriminate | ].
  inversion Hview; subst view; clear Hview.
  cbn [steps currentStepIndex completedSteps totalSteps].
  split; [reflexivity | ]. split; [reflexivity | ].
  split; [exact Hall | ]. split; [ | split; [reflexivity | exact Hidx]].
  unfold banner_steps. simpl. rewrite E1, E2, E3. reflexivity.
Qed.

Lemma strict_equals_false_iff (v : JSValue) :
  strict_equals_false v = true <-> v = JSBoolean false.
Proof.
  destruct v as [| | [|] | n | s]; simpl; split; intros H;
    try reflexivity; discriminate H.
Qed.

(** The output of [Checkout], reduced to what depends on the flag. *)
Lemma Checkout_banner_and_form (props : CheckoutProps)
  (checkout : CheckoutPublic) :
  banner_count (Checkout props checkout)
  = (if strict_equals_false (organizationPaymentReady checkout)
     then 1 else 0)
  /\ checkout_forms (Checkout props checkout)
     = [strict_equals_false (organizationPaymentReady checkout)].
Proof.
  unfold Checkout, banner_count, checkout_forms, and_then.
  destruct (strict_equals_true (embed props));
    destruct (strict_equals_false (organizationPaymentReady checkout));
    destruct (String.eqb (productPrice_amountType checkout) "custom");
    split; reflexivity.
Qed.

(** **** C10
    Whenever the [organizationPaymentReady] flag of the checkout is
    [false], the output of [Checkout] contains the
    [OrganizationNotReadyBanner] and its [CheckoutForm] is disabled, in the
    embedded and in the non-embedded layout alike; when the flag is not
    [false], the output contains no such banner. *)
Theorem checkout_not_ready_banner (props : CheckoutProps)
  (checkout : CheckoutPublic) :
  (organizationPaymentReady checkout = JSBoolean false ->
   banner_count (Checkout props checkout) = 1
   /\ checkout_forms (Checkout props checkout) = [true])
  /\ (organizationPaymentReady checkout <> JSBoolean false ->
      banner_count (Checkout props checkout) = 0).
Proof.
  destruct (Checkout_banner_and_form props checkout) as (Hb & Hf).
  rewrite Hb, Hf.
  split; intros H.
  - apply strict_equals_false_iff in H. rewrite H. split; reflexivity.
  - destruct (strict_equals_false (organizationPaymentReady checkout))
      eqn:E; [ | reflexivity].
    apply strict_equals_false_iff in E. contradiction.
Qed.

(** When the flag is not [false] the form is enabled. *)
Lemma checkout_form_enabled (props : CheckoutProps)
  (checkout : CheckoutPublic) :
  organizationPaymentReady checkout <> JSBoolean false ->
  checkout_forms (Checkout props checkout) = [false].
Proof.
  intros H. destruct (Checkout_banner_and_form props checkout) as (_ & Hf).
  rewrite Hf.
  destruct (strict_equals_false (organizationPaymentReady checkout)) eqn:E;
    [ | reflexivity].
  apply strict_equals_false_iff in E. contradiction.
Qed.

(** ** The statements on sample data *)

Example get_missing_steps_new_organization :
  get_missing_steps sample_is_payout_ready sample_new_organization
    (Some sample_pending_user)
  = ["organization_details"; "payout_account"; "identity_verification"].
Proof. reflexivity. Qed.

Example setup_banner_new_organization :
  option_map (fun view => (completedSteps view, totalSteps view,
                           currentStepIndex view, headline view,
                           call_to_action view))
    (OrganizationSetupBanner sample_organization_schema sample_query)
  = Some (3, 3, (-1)%Z, "You're all set! Ready to accept payments.", None).
Proof. reflexivity. Qed.

Lemma is_payment_ready_spec_witness :
  payment_ready_conditions sample_is_payout_ready sample_ready_organization
  /\ ~ payment_ready_conditions sample_is_payout_ready
        sample_new_organization.
Proof.
  split.
  - apply (proj1 (is_payment_ready_spec sample_is_payout_ready
                    sample_ready_organization)).
    reflexivity.
  - apply (proj2 (is_payment_ready_spec sample_is_payout_ready
                    sample_new_organization)).
    reflexivity.
Defined.

Lemma create_checkout_fails_fast_witness :
  create_checkout sample_is_payout_ready sample_rest_of_the_existing_logic
    sample_new_product 1000 []
  = (inl (CheckoutNotAllowed "Organization is not ready to accept payments"),
     [])
  /\ create_checkout sample_is_payout_ready
       sample_rest_of_the_existing_logic sample_ready_product 1000 []
     = (inr 1000, ["checkout created"]).
Proof.
  split.
  - apply (proj1 (create_checkout_fails_fast sample_is_payout_ready
                    (list string) nat nat sample_rest_of_the_existing_logic
                    sample_new_product 1000 [])).
    reflexivity.
  - apply (proj2 (create_checkout_fails_fast sample_is_payout_ready
                    (list string) nat nat sample_rest_of_the_existing_logic
                    sample_ready_product 1000 [])).
    reflexivity.
Defined.

Lemma identity_verification_missing_iff_witness :
  In identity_verification
    (get_missing_steps sample_is_payout_ready sample_ready_organization
       (Some sample_pending_user))
  /\ identity_verification_status sample_verified_user = verified.
Proof.
  split.
  - apply (proj2 (identity_verification_missing_iff sample_is_payout_ready
                    sample_ready_organization sample_pending_user)).
    discriminate.
  - reflexivity.
Defined.

Lemma payment_ready_only_identity_missing_witness :
  is_payment_ready sample_is_payout_ready sample_ready_organization = true
  /\ forall step,
       In step (get_missing_steps sample_is_payout_ready
                  sample_ready_organization (Some sample_pending_user)) ->
       step = identity_verification.
Proof.
  split; [reflexivity | ].
  apply (payment_ready_only_identity_missing sample_is_payout_ready
           sample_ready_organization (Some sample_pending_user)).
  reflexivity.
Defined.

Lemma empty_missing_steps_not_payment_ready_witness :
  sample_is_payout_ready sample_account = true
  /\ exists (org : Organization) (user : User),
       identity_verification_status user = verified
       /\ status org <> ACTIVE
       /\ get_missing_steps sample_is_payout_ready org (Some user) = []
       /\ is_payment_ready sample_is_payout_ready org = false.
Proof.
  split; [reflexivity | ].
  apply (empty_missing_steps_not_payment_ready sample_is_payout_ready
           sample_account).
  reflexivity.
Defined.

Lemma setup_banner_steps_always_completed_witness :
  payment_ready sample_payment_status = false
  /\ map key (banner_steps sample_organization_schema sample_payment_status)
     = ["create_product"; "integrate_polar"; "complete_account_setup"]
  /\ map completed
       (banner_steps sample_organization_schema sample_payment_status)
     = [true; true; true]
  /\ findIndex (fun step => negb (completed step))
       (banner_steps sample_organization_schema sample_payment_status)
     = (-1)%Z.
Proof.
  split; [reflexivity | ].
  destruct (setup_banner_steps_always_completed sample_is_payout_ready
              sample_new_organization (Some sample_pending_user)
              sample_organization_schema sample_payment_status)
    as (Hkey & _ & _ & Hflags & _ & Hidx & _).
  - reflexivity.
  - split; [exact Hkey | ]. split; [exact Hflags | exact Hidx].
Defined.

Lemma checkout_not_ready_banner_witness :
  (banner_count (Checkout sample_embed_props sample_blocked_checkout) = 1
   /\ checkout_forms (Checkout sample_embed_props sample_blocked_checkout)
      = [true])
  /\ (banner_count (Checkout sample_page_props sample_blocked_checkout) = 1
      /\ checkout_forms (Checkout sample_page_props sample_blocked_checkout)
         = [true])
  /\ banner_count (Checkout sample_page_props sample_legacy_checkout) = 0.
Proof.
  split; [ | split].
  - apply (proj1 (checkout_not_ready_banner sample_embed_props
                    sample_blocked_checkout)).
    reflexivity.
  - apply (proj1 (checkout_not_ready_banner sample_page_props
                    sample_blocked_checkout)).
    reflexivity.
  - apply (proj2 (checkout_not_ready_banner sample_page_props
                    sample_legacy_checkout)).
    discriminate.
Defined.

(** ** Further facts about the server side *)

Section ServerRelations.

Variable is_payout_ready : Account -> bool.

(** **** X1
    An organization is payment-ready exactly when it is [ACTIVE] and
    [get_missing_steps] reports nothing but, possibly,
    [identity_verification]. *)
Theorem payment_ready_iff_active_and_steps_done (org : Organization)
  (user : option User) :
  is_payment_ready is_payout_ready org = true
  <-> status org = ACTIVE
      /\ forall step,
           In step (get_missing_steps is_payout_ready org user) ->
           step = identity_verification.
Proof.
  split.
  - intros Hready. split.
    + apply is_payment_ready_true_iff in Hready. apply Hready.
    + rewrite (payment_ready_missing_steps _ _ _ Hready).
      destruct user as [u|]; [ | intros step []].
      destruct (IdentityVerificationStatus_eqb
                  (identity_verification_status u) verified);
        [intros step [] | intros step [H | []]; now symmetry].
  - intros (Hst & Hsteps).
    rewrite get_missing_steps_parts in Hsteps.
    unfold is_payment_ready, expected_payout_step in *.
    apply Status_eqb_eq in Hst. rewrite Hst. simpl.
    assert (Hod : organization_details <> identity_verification)
      by discriminate.
    assert (Hpa : payout_account <> identity_verification) by discriminate.
    assert (Hpaa : payout_account_activation <> identity_verification)
      by discriminate.
    organization_cases org; simpl_truthy; simpl in *;
      try (elim Hod; apply Hsteps; tauto);
      try (elim Hpa; apply Hsteps; tauto).
    destruct (is_payout_ready acc); simpl in *; [reflexivity | ].
    elim Hpaa. apply Hsteps. tauto.
Qed.

(** The number of steps reported: at most three, and at most two when no
    user is given. *)
Lemma get_missing_steps_length (org : Organization) (user : option User) :
  length (get_missing_steps is_payout_ready org user) <= 3.
Proof.
  rewrite get_missing_steps_parts.
  destruct (expected_payout_step_cases is_payout_ready org)
    as [E | [E | E]]; rewrite E;
    destruct (truthy (details org) && truthy (details_submitted_at org));
    destruct user as [u|];
    try destruct (IdentityVerificationStatus_eqb
                    (identity_verification_status u) verified);
    simpl; repeat constructor.
Qed.

Section EndpointRelations.

Variable AsyncSession : Type.

(** **** X2
    A response that says [payment_ready] describes an [ACTIVE]
    organization with an account, and lists no missing step except
    [identity_verification], which it lists exactly when the requesting
    user is not verified. *)
Theorem payment_status_ready_response (w : World AsyncSession) :
  let response := fst (get_organization_payment_status is_payout_ready w) in
  payment_ready response = true ->
  organization_status response = ACTIVE
  /\ (exists st, ops_account_status response = Some st)
  /\ missing_steps response
     = if IdentityVerificationStatus_eqb
            (ops_identity_verification_status response) verified
       then [] else [identity_verification].
Proof.
  unfold get_organization_payment_status, bind, gets, ret. simpl.
  intros Hready.
  pose proof (proj1 (is_payment_ready_true_iff _ _) Hready)
    as (Hst & _ & _ & _ & acc & Hacc & _).
  split; [exact Hst | ]. split.
  - rewrite Hacc. simpl. eexists. reflexivity.
  - exact (payment_ready_missing_steps _ _ (Some (w_subject w)) Hready).
Qed.

(** **** X3
    How [account_status] and the payout steps of a response go together:
    without an [account_status] the response lists [payout_account], and a
    response that lists [payout_account_activation] has an
    [account_status] and is not [payment_ready]. *)
Theorem payment_status_account_steps (w : World AsyncSession) :
  let response := fst (get_organization_payment_status is_payout_ready w) in
  (ops_account_status response = None ->
   In payout_account (missing_steps response))
  /\ (In payout_account_activation (missing_steps response) ->
      ops_account_status response <> None
      /\ payment_ready response = false).
Proof.
  unfold get_organization_payment_status, bind, gets, ret. simpl.
  destruct w as [org subject session]. simpl.
  rewrite get_missing_steps_parts.
  unfold is_payment_ready, expected_payout_step.
  split.
  - intros Hnone. apply in_or_app. right. apply in_or_app. left.
    destruct (account org) as [acc|]; [discriminate Hnone | ].
    destruct (account_id org); now left.
  - intros Hin.
    apply in_app_or in Hin. destruct Hin as [Hin | Hin].
    { destruct (truthy (details org) && truthy (details_submitted_at org));
        simpl in Hin; intuition discriminate. }
    apply in_app_or in Hin. destruct Hin as [Hin | Hin].
    + organization_cases org; simpl_truthy; simpl in *;
        try (intuition discriminate);
        destruct (is_payout_ready acc); simpl in *;
        try (intuition discriminate);
        (split; [discriminate | ]);
        destruct (Status_eqb st ACTIVE); reflexivity.
    + destruct (IdentityVerificationStatus_eqb
                  (identity_verification_status subject) verified);
        simpl in Hin; intuition discriminate.
Qed.

Variable ProductPrice : Type.
Variable Checkout : Type.
Variable rest_of_the_existing_logic :
  Product -> ProductPrice -> Service AsyncSession Checkout.

(** **** X4
    The endpoint and the guard of [create_checkout] agree: when the
    response for an organization says it is not [payment_ready], creating
    a checkout for a product of that organization raises
    [CheckoutNotAllowed] and leaves the session alone; when it says
    [payment_ready], the guard lets the call through. *)
Theorem payment_status_predicts_checkout (w : World AsyncSession)
  (product : Product) (price : ProductPrice) (session : AsyncSession) :
  product_organization product = w_organization w ->
  let response := fst (get_organization_payment_status is_payout_ready w) in
  (payment_ready response = false ->
   create_checkout is_payout_ready rest_of_the_existing_logic
     product price session
   = (inl (CheckoutNotAllowed "Organization is not ready to accept payments"),
      session))
  /\ (payment_ready response = true ->
      create_checkout is_payout_ready rest_of_the_existing_logic
        product price session
      = rest_of_the_existing_logic product price session).
Proof.
  intros Horg.
  unfold get_organization_payment_status, bind, gets, ret, create_checkout,
    raise.
  simpl. rewrite Horg.
  split; intros H; rewrite H; reflexivity.
Qed.

End EndpointRelations.

End ServerRelations.

(** ** The banners on the responses of the endpoint *)

Lemma get_missing_steps_possible (is_payout_ready : Account -> bool)
  (org : Organization) (user : option User) :
  In (get_missing_steps is_payout_ready org user) possible_missing_steps.
Proof.
  rewrite get_missing_steps_parts.
  destruct (expected_payout_step_cases is_payout_ready org)
    as [E | [E | E]]; rewrite E;
    destruct (truthy (details org) && truthy (details_submitted_at org));
    destruct user as [u|];
    try destruct (IdentityVerificationStatus_eqb
                    (identity_verification_status u) verified);
    unfold possible_missing_steps; simpl; tauto.
Qed.

(* Replace a list of missing steps by each of the lists it can be. *)
Ltac missing_steps_cases H :=
  unfold possible_missing_steps in H; simpl in H;
  repeat (destruct H as [H | H]; [rewrite <- H; clear H | ]);
  [.. | destruct H].

(** **** X5
    In the proposed banner the completed steps and the missing steps add
    up: with [missing_steps] as [get_missing_steps] returns it, the number
    of completed steps is three minus the number of missing steps. *)
Theorem proposed_banner_counts_missing_steps
  (is_payout_ready : Account -> bool) (org : Organization)
  (user : option User) (organization : OrganizationSchema)
  (paymentStatus : OrganizationPaymentStatus) :
  missing_steps paymentStatus = get_missing_steps is_payout_ready org user ->
  length (filter DesignDoc.completed
            (DesignDoc.setup_steps organization paymentStatus))
  + length (missing_steps paymentStatus) = 3.
Proof.
  intros Hsteps. unfold DesignDoc.setup_steps. rewrite Hsteps.
  pose proof (get_missing_steps_possible is_payout_ready org user) as H.
  missing_steps_cases H; reflexivity.
Qed.

(** **** X6
    The three steps of the proposed banner say what the organization and
    the user have done: the first is completed exactly when the details
    are non-empty and submitted, the second exactly when the organization
    has a payout-ready account, the third exactly when the user is
    verified. *)
Theorem proposed_banner_steps_reflect_state
  (is_payout_ready : Account -> bool) (org : Organization) (user : User)
  (organization : OrganizationSchema)
  (paymentStatus : OrganizationPaymentStatus) :
  missing_steps paymentStatus
  = get_missing_steps is_payout_ready org (Some user) ->
  exists details_done account_done identity_done : bool,
    map DesignDoc.completed (DesignDoc.setup_steps organization paymentStatus)
    = [details_done; account_done; identity_done]
    /\ (details_done = true
        <-> details_non_empty org /\ details_submitted org)
    /\ (account_done = true <-> has_payout_ready_account is_payout_ready org)
    /\ (identity_done = true
        <-> identity_verification_status user = verified).
Proof.
  intros Hsteps.
  exists (truthy (details org) && truthy (details_submitted_at org)).
  exists (match expected_payout_step is_payout_ready org with
          | [] => true
          | _ :: _ => false
          end).
  exists (IdentityVerificationStatus_eqb
            (identity_verification_status user) verified).
  split; [ | split; [ | split]].
  - unfold DesignDoc.setup_steps. rewrite Hsteps, get_missing_steps_parts.
    destruct (expected_payout_step_cases is_payout_ready org)
      as [E | [E | E]]; rewrite E;
      destruct (truthy (details org) && truthy (details_submitted_at org));
      destruct (IdentityVerificationStatus_eqb
                  (identity_verification_status user) verified);
      reflexivity.
  - rewrite <- truthy_details_iff. unfold details_submitted.
    rewrite andb_true_iff.
    destruct (details_submitted_at org); simpl_truthy;
      split; intros (H1 & H2); split; try assumption; try discriminate;
      try reflexivity.
    now elim H2.
  - unfold expected_payout_step, has_payout_ready_account.
    destruct (account_id org), (account org) as [acc|];
      try destruct (is_payout_ready acc) eqn:Eacc; split;
      try discriminate; try reflexivity;
      try (intros (H1 & a & H2 & H3);
           solve [discriminate | now elim H1
                 | inversion H2; subst; congruence]).
    intros _. split; [discriminate | ].
    exists acc. split; [reflexivity | assumption].
  - apply IdentityVerificationStatus_eqb_eq.
Qed.

(** **** X7
    For an [ACTIVE] organization the proposed banner, fed with the
    response of the endpoint, is never shown with everything done: when
    it is rendered at least one step is still open and is offered as a
    link. *)
Theorem proposed_banner_active_organization_open_step
  (is_payout_ready : Account -> bool) (AsyncSession : Type)
  (w : World AsyncSession) (organization : OrganizationSchema)
  (query : PaymentStatusQuery) (view : DesignDoc.SetupBannerView) :
  status (w_organization w) = ACTIVE ->
  data query = Some (fst (get_organization_payment_status is_payout_ready w)) ->
  DesignDoc.OrganizationSetupBanner organization query = Some view ->
  DesignDoc.completedSteps view < DesignDoc.totalSteps view
  /\ exists href label, In (DesignDoc.LinkTo href label) (DesignDoc.lines view).
Proof.
  intros Hst Hdata Hview.
  unfold DesignDoc.OrganizationSetupBanner in Hview.
  destruct (isLoading query); [discriminate | ].
  rewrite Hdata in Hview. clear Hdata.
  unfold get_organization_payment_status, bind, gets, ret in Hview.
  destruct w as [org subject session].
  cbn [fst w_organization w_subject payment_ready missing_steps] in *.
  unfold DesignDoc.setup_steps in Hview.
  cbn [missing_steps] in Hview.
  rewrite get_missing_steps_parts in Hview.
  unfold is_payment_ready, expected_payout_step in Hview.
  apply Status_eqb_eq in Hst. rewrite Hst in Hview.
  destruct (IdentityVerificationStatus_eqb
              (identity_verification_status subject) verified);
    organization_cases org; simpl_truthy;
    try destruct (is_payout_ready acc);
    simpl in Hview; try discriminate Hview;
    inversion Hview; subst view; clear Hview; simpl;
    (split; [lia | ]); do 2 eexists;
    repeat (first [left; reflexivity | right]).
Qed.

(** **** X8
    The implemented banner on the responses of the endpoint: it is hidden
    for a payment-ready organization, and for every other organization it
    is shown with three of three steps completed, the headline of a
    finished setup, no active row and no call to action. *)
Theorem setup_banner_on_endpoint_response
  (is_payout_ready : Account -> bool) (AsyncSession : Type)
  (w : World AsyncSession) (organization : OrganizationSchema)
  (query : PaymentStatusQuery) :
  isLoading query = false ->
  data query = Some (fst (get_organization_payment_status is_payout_ready w)) ->
  (is_payment_ready is_payout_ready (w_organization w) = true ->
   OrganizationSetupBanner organization query = None)
  /\ (is_payment_ready is_payout_ready (w_organization w) = false ->
      exists view,
        OrganizationSetupBanner organization query = Some view
        /\ completedSteps view = 3
        /\ totalSteps view = 3
        /\ headline view = "You're all set! Ready to accept payments."
        /\ call_to_action view = None
        /\ Forall (fun row => isActive row = false) (rows view)).
Proof.
  intros Hload Hdata.
  unfold OrganizationSetupBanner. rewrite Hload, Hdata.
  unfold get_organization_payment_status, bind, gets, ret.
  cbn [fst payment_ready].
  split; intros Hready; rewrite Hready; [reflexivity | ].
  eexists. split; [reflexivity | ].
  unfold banner_steps. cbn [missing_steps].
  pose proof (get_missing_steps_possible is_payout_ready (w_organization w)
                (Some (w_subject w))) as H.
  missing_steps_cases H; simpl;
    repeat (split; [reflexivity | ]); repeat constructor.
Qed.

(** ** The implemented banner on any list of missing steps *)

(* A rendered banner, by the three tests on [missing_steps] it depends on. *)
Ltac rendered_banner_cases Hview :=
  unfold OrganizationSetupBanner in Hview;
  destruct (isLoading _); [discriminate Hview | ];
  destruct (data _) as [paymentStatus|]; [ | discriminate Hview];
  destruct (payment_ready paymentStatus); [discriminate Hview | ];
  unfold banner_steps in Hview;
  destruct (includes (missing_steps paymentStatus) "create_product");
  destruct (includes (missing_steps paymentStatus) "integrate_polar");
  destruct (includes (missing_steps paymentStatus) "complete_account_setup");
  inversion Hview; subst; clear Hview.

(** **** X9
    In a rendered banner there are three steps, and "no step left"
    is said four ways at once: the index of the current step is [-1], all
    three steps are counted as completed, the headline is that of a
    finished setup, and there is no call to action. *)
Theorem setup_banner_finished_views (organization : OrganizationSchema)
  (query : PaymentStatusQuery) (view : SetupBannerView) :
  OrganizationSetupBanner organization query = Some view ->
  totalSteps view = 3
  /\ completedSteps view <= 3
  /\ (currentStepIndex view = (-1)%Z
      <-> completedSteps view = totalSteps view)
  /\ (headline view = "You're all set! Ready to accept payments."
      <-> completedSteps view = totalSteps view)
  /\ (call_to_action view = None
      <-> completedSteps view = totalSteps view).
Proof.
  intros Hview. rendered_banner_cases Hview; simpl;
    (split; [reflexivity | ]); (split; [lia | ]);
    repeat split; intros H; try reflexivity; discriminate H.
Qed.

(** **** X10
    In a rendered banner with a step left, the current step is the first
    step that is not completed: every step before it is completed, and
    the call to action carries its label and its link. *)
Theorem setup_banner_current_step (organization : OrganizationSchema)
  (query : PaymentStatusQuery) (view : SetupBannerView) :
  OrganizationSetupBanner organization query = Some view ->
  currentStepIndex view <> (-1)%Z ->
  exists step,
    array_get (steps view) (currentStepIndex view) = Some step
    /\ completed step = false
    /\ Forall (fun earlier => completed earlier = true)
         (firstn (Z.to_nat (currentStepIndex view)) (steps view))
    /\ call_to_action view = Some (Some (label step), href step).
Proof.
  intros Hview Hidx. rendered_banner_cases Hview; simpl in *;
    try (now elim Hidx);
    eexists; (split; [reflexivity | ]); (split; [reflexivity | ]);
    (split; [repeat constructor | reflexivity]).
Qed.

(** **** X11
    The rows of a rendered banner are its steps in order, and a row is
    the active one exactly when it is the row of the current step; so at
    most one row is active, and none when no step is left. *)
Theorem setup_banner_active_row (organization : OrganizationSchema)
  (query : PaymentStatusQuery) (view : SetupBannerView) :
  OrganizationSetupBanner organization query = Some view ->
  map row_step (rows view) = steps view
  /\ forall (index : nat) (row : StepRow),
       nth_error (rows view) index = Some row ->
       (isActive row = true <-> Z.of_nat index = currentStepIndex view).
Proof.
  intros Hview. rendered_banner_cases Hview; simpl;
    (split; [reflexivity | ]);
    intros [|[|[|index]]] row Hrow; simpl in Hrow;
    try (destruct index; discriminate Hrow);
    inversion Hrow; subst; simpl; split; intros H;
    try reflexivity; try discriminate H; try lia.
Qed.

(** ** The structure of the checkout page *)

(* The output of [Checkout], by everything its markup branches on. *)
Ltac checkout_cases props checkout :=
  unfold Checkout, and_then;
  destruct (strict_equals_true (embed props)) eqn:Eembed;
  destruct (strict_equals_false (organizationPaymentReady checkout))
    eqn:Eflag;
  destruct (String.eqb_spec (productPrice_amountType checkout) "custom")
    as [Ecustom | Ecustom].

Lemma strict_equals_true_iff (v : option bool) :
  strict_equals_true v = true <-> v = Some true.
Proof.
  destruct v as [[|]|]; simpl; split; intros H;
    try reflexivity; discriminate H.
Qed.

(** **** X12
    Whatever the layout and the flag, the page shows the product
    information, the product switcher and exactly one checkout form; the
    pay-what-you-want form is there exactly when the amount type of the
    price is [custom]. The banner never replaces any of them. *)
Theorem checkout_always_shows_product_and_form (props : CheckoutProps)
  (checkout : CheckoutPublic) :
  In CheckoutProductInfo (components (Checkout props checkout))
  /\ In CheckoutProductSwitcher (components (Checkout props checkout))
  /\ length (checkout_forms (Checkout props checkout)) = 1
  /\ (In CheckoutPWYWForm (components (Checkout props checkout))
      <-> productPrice_amountType checkout = "custom").
Proof.
  checkout_cases props checkout; simpl;
    (split; [tauto | ]); (split; [tauto | ]); (split; [reflexivity | ]);
    split; intros H; try assumption; try tauto;
    repeat (destruct H as [H | H]; [discriminate H | ]); destruct H.
Qed.

(** **** X13
    The embedded layout is used only when the [embed] property is exactly
    [true]: then the root is a [ShadowBox] and there is no [CheckoutCard].
    With [embed] false or missing the root is a [ShadowBoxOnMd] and the
    [CheckoutCard] is shown. *)
Theorem checkout_layout (props : CheckoutProps) (checkout : CheckoutPublic) :
  (embed props = Some true ->
   (exists children, Checkout props checkout = El ShadowBox children)
   /\ ~ In CheckoutCard (components (Checkout props checkout)))
  /\ (embed props <> Some true ->
      (exists children, Checkout props checkout = El ShadowBoxOnMd children)
      /\ In CheckoutCard (components (Checkout props checkout))).
Proof.
  split; intros Hembed.
  - apply strict_equals_true_iff in Hembed.
    checkout_cases props checkout; try discriminate Hembed;
      (split; [eexists; reflexivity | ]); simpl; intros H;
      repeat (destruct H as [H | H]; [discriminate H | ]); destruct H.
  - assert (Hfalse : strict_equals_true (embed props) = false).
    { destruct (strict_equals_true (embed props)) eqn:E; [ | reflexivity].
      apply strict_equals_true_iff in E. contradiction. }
    checkout_cases props checkout; try discriminate Hfalse;
      (split; [eexists; reflexivity | ]); simpl; tauto.
Qed.

(** **** X14
    When the flag is [false] the banner is the first thing on the page:
    in document order only layout containers come before it, and the
    product information and the disabled form come after it. *)
Theorem checkout_banner_comes_first (props : CheckoutProps)
  (checkout : CheckoutPublic) :
  organizationPaymentReady checkout = JSBoolean false ->
  exists before after,
    components (Checkout props checkout)
    = before ++ OrganizationNotReadyBanner :: after
    /\ Forall (fun c => c = ShadowBox \/ c = ShadowBoxOnMd \/ c = div) before
    /\ In CheckoutProductInfo after
    /\ In (CheckoutForm true) after.
Proof.
  intros Hflag. apply strict_equals_false_iff in Hflag.
  checkout_cases props checkout; try discriminate Hflag; simpl.
  1, 2: exists [ShadowBox]; eexists; split; [reflexivity | ];
    split; [repeat constructor; tauto | ]; simpl; tauto.
  all: exists [ShadowBoxOnMd; div]; eexists; split; [reflexivity | ];
    split; [repeat constructor; tauto | ]; simpl; tauto.
Qed.

(** **** X15
    The check the design document proposes and the implemented page
    differ, also when their two checkout objects carry the same value of
    the flag. The proposed check returns early, with the banner and
    without any form, for every falsy value of its flag, so also whenever
    the implemented page shows the banner. For a falsy value other than
    [false] (a flag that is missing, [null], [0] or empty) the proposed
    check still returns early, and the implemented page shows no banner
    and an enabled form. *)
Theorem proposed_checkout_check_blocks_more (props : CheckoutProps)
  (checkout : CheckoutPublic) (proposed : DesignDoc.CheckoutSchema) :
  DesignDoc.organization_payment_ready proposed
  = organizationPaymentReady checkout ->
  (banner_count (Checkout props checkout) = 1 ->
   exists e,
     DesignDoc.checkout_not_ready_return proposed = Some e
     /\ banner_count e = 1
     /\ checkout_forms e = [])
  /\ (js_not (DesignDoc.organization_payment_ready proposed) = true ->
      DesignDoc.organization_payment_ready proposed <> JSBoolean false ->
      (exists e,
          DesignDoc.checkout_not_ready_return proposed = Some e
          /\ banner_count e = 1
          /\ checkout_forms e = [])
      /\ banner_count (Checkout props checkout) = 0
      /\ checkout_forms (Checkout props checkout) = [false])
  /\ (DesignDoc.checkout_not_ready_return proposed = None ->
      banner_count (Checkout props checkout) = 0
      /\ checkout_forms (Checkout props checkout) = [false]).
Proof.
  intros Hsame.
  destruct (Checkout_banner_and_form props checkout) as (Hb & Hf).
  rewrite Hb, Hf. unfold DesignDoc.checkout_not_ready_return.
  rewrite Hsame.
  assert (Himpl : strict_equals_false (organizationPaymentReady checkout)
                  = true ->
                  js_not (organizationPaymentReady checkout) = true).
  { destruct (organizationPaymentReady checkout) as [| | [|] | n | s];
      simpl; intros H; try reflexivity; discriminate H. }
  split; [ | split].
  - intros H.
    destruct (strict_equals_false (organizationPaymentReady checkout));
      [ | discriminate H].
    rewrite (Himpl eq_refl). eexists. repeat split.
  - intros Hfalsy Hne. rewrite Hfalsy.
    split; [eexists; repeat split | ].
    destruct (strict_equals_false (organizationPaymentReady checkout))
      eqn:E; [ | split; reflexivity].
    apply strict_equals_false_iff in E. contradiction.
  - intros Hnone.
    destruct (strict_equals_false (organizationPaymentReady checkout));
      [ | split; reflexivity].
    rewrite (Himpl eq_refl) in Hnone. discriminate Hnone.
Qed.

(** ** The callbacks of the checkout page *)

Section CallbackFacts.

Variable Remote : Type.
Variable CheckoutUpdatePublic : Type.
Variable CheckoutConfirmStripe : Type.
Variable Stripe : Type.
Variable StripeElements : Type.
Variable CheckoutPublicConfirmed : Type.
Variable customerSessionToken : CheckoutPublicConfirmed -> string.
Variable _update :
  CheckoutUpdatePublic -> Remote -> (JSError + CheckoutPublic) * Remote.
Variable _confirm :
  CheckoutConfirmStripe -> option Stripe -> option StripeElements ->
  Remote -> (JSError + CheckoutPublicConfirmed) * Remote.
Variable checkoutConfirmedRedirect :
  CheckoutPublic -> string -> Remote -> (JSError + unit) * Remote.

(** **** X16
    [update] is transparent: it returns what the [update] of the hook
    returns and throws what it throws, leaves [fullLoading] alone, and
    reloads the page once exactly when the error is an
    [ExpiredCheckoutError] (never on success or on another error). *)
Theorem update_transparent (data : CheckoutUpdatePublic)
  (page : Page Remote) :
  let outcome := update _update data page in
  fst outcome = fst (_update data (remote page))
  /\ remote (snd outcome) = snd (_update data (remote page))
  /\ fullLoading (snd outcome) = fullLoading page
  /\ reloads (snd outcome)
     = match fst (_update data (remote page)) with
       | inl (ExpiredCheckoutError _) => S (reloads page)
       | _ => reloads page
       end.
Proof.
  unfold update, try_catch, call, await, throw, async_return,
    window_location_reload.
  destruct (_update data (remote page)) as [[[msg | name msg] | c] r];
    simpl; repeat split.
Qed.

(** **** X17
    When the [confirm] of the hook fails, [confirm] throws the same
    error, the redirect is not started, [fullLoading] is back to [false],
    and the page is reloaded once exactly when the error is an
    [ExpiredCheckoutError]. *)
Theorem confirm_failure (checkout : CheckoutPublic)
  (data : CheckoutConfirmStripe) (stripe : option Stripe)
  (elements : option StripeElements) (page : Page Remote)
  (error : JSError) (remote' : Remote) :
  _confirm data stripe elements (remote page) = (inl error, remote') ->
  confirm customerSessionToken _confirm checkoutConfirmedRedirect
    checkout data stripe elements page
  = (inl error,
     {| fullLoading := false;
        reloads := if instanceof_ExpiredCheckoutError error
                   then S (reloads page) else reloads page;
        remote := remote' |}).
Proof.
  intros H.
  unfold confirm, try_catch, call, await, throw, async_return,
    window_location_reload, setFullLoading.
  simpl. rewrite H.
  destruct error; reflexivity.
Qed.

(** **** X18
    When the [confirm] of the hook succeeds, the redirect is run next,
    with the checkout of the page and the customer session token of the
    confirmed checkout. The page is not reloaded and [fullLoading] stays
    [true], whether the redirect succeeds (then [confirm] returns the
    confirmed checkout) or fails (then [confirm] throws its error). *)
Theorem confirm_success (checkout : CheckoutPublic)
  (data : CheckoutConfirmStripe) (stripe : option Stripe)
  (elements : option StripeElements) (page : Page Remote)
  (confirmedCheckout : CheckoutPublicConfirmed) (remote' : Remote) :
  _confirm data stripe elements (remote page)
  = (inr confirmedCheckout, remote') ->
  let redirected :=
    checkoutConfirmedRedirect checkout
      (customerSessionToken confirmedCheckout) remote' in
  confirm customerSessionToken _confirm checkoutConfirmedRedirect
    checkout data stripe elements page
  = (match fst redirected with
     | inl error => inl error
     | inr _ => inr confirmedCheckout
     end,
     {| fullLoading := true;
        reloads := reloads page;
        remote := snd redirected |}).
Proof.
  intros H.
  unfold confirm, try_catch, call, await, throw, async_return,
    window_location_reload, setFullLoading.
  simpl. rewrite H. simpl.
  destruct (checkoutConfirmedRedirect checkout
              (customerSessionToken confirmedCheckout) remote')
    as [[error | []] r]; reflexivity.
Qed.

(** **** X19
    After [confirm] the page shows as loading exactly when the
    confirmation went through or the hook still reports loading: a failed
    confirmation clears the page's own flag, a successful one leaves it
    set. *)
Theorem confirm_loading (checkout : CheckoutPublic)
  (data : CheckoutConfirmStripe) (stripe : option Stripe)
  (elements : option StripeElements) (page : Page Remote)
  (confirmLoading : bool) :
  loading confirmLoading
    (snd (confirm customerSessionToken _confirm checkoutConfirmedRedirect
            checkout data stripe elements page))
  = match fst (_confirm data stripe elements (remote page)) with
    | inl _ => confirmLoading
    | inr _ => true
    end.
Proof.
  unfold loading, confirm, try_catch, call, await, throw, async_return,
    window_location_reload, setFullLoading.
  simpl.
  destruct (_confirm data stripe elements (remote page))
    as [[error | c] r]; simpl.
  - destruct error; simpl; apply orb_false_r.
  - destruct (checkoutConfirmedRedirect checkout (customerSessionToken c) r)
      as [[error | []] r']; simpl; apply orb_true_r.
Qed.

End CallbackFacts.

(** ** The further statements on sample data *)

Example proposed_banner_finished_but_shown :
  option_map (fun view => (DesignDoc.completedSteps view,
                           DesignDoc.totalSteps view))
    (DesignDoc.OrganizationSetupBanner sample_organization_schema
       {| data :=
            Some (fst (get_organization_payment_status sample_is_payout_ready
                         {| w_organization :=
                              {| status := UNDER_REVIEW;
                                 details := Some sample_details;
                                 details_submitted_at :=
                                   Some {| epoch_seconds := 0 |};
                                 account_id := Some {| uuid_int := 1 |};
                                 account := Some sample_account |};
                            w_subject := sample_verified_user;
                            w_session := @nil string |}));
          isLoading := false |})
  = Some (3, 3).
Proof. reflexivity. Qed.

Lemma payment_ready_iff_active_and_steps_done_witness :
  is_payment_ready sample_is_payout_ready sample_ready_organization = true
  /\ status sample_ready_organization = ACTIVE.
Proof.
  split; [reflexivity | ].
  apply (proj1 (payment_ready_iff_active_and_steps_done
                  sample_is_payout_ready sample_ready_organization
                  (Some sample_pending_user))).
  reflexivity.
Defined.

Lemma payment_status_ready_response_witness :
  missing_steps
    (fst (get_organization_payment_status sample_is_payout_ready
            sample_ready_world))
  = [identity_verification].
Proof.
  destruct (payment_status_ready_response sample_is_payout_ready
              (list string) sample_ready_world) as (_ & _ & H).
  - reflexivity.
  - exact H.
Defined.

Lemma payment_status_account_steps_witness :
  In payout_account
    (missing_steps
       (fst (get_organization_payment_status sample_is_payout_ready
               sample_new_world)))
  /\ payment_ready
       (fst (get_organization_payment_status sample_is_payout_ready
               sample_unfinished_world)) = false.
Proof.
  split.
  - apply (proj1 (payment_status_account_steps sample_is_payout_ready
                    (list string) sample_new_world)).
    reflexivity.
  - apply (proj2 (payment_status_account_steps sample_is_payout_ready
                    (list string) sample_unfinished_world)).
    simpl. tauto.
Defined.

Lemma payment_status_predicts_checkout_witness :
  create_checkout sample_is_payout_ready sample_rest_of_the_existing_logic
    sample_new_product 1000 []
  = (inl (CheckoutNotAllowed "Organization is not ready to accept payments"),
     []).
Proof.
  apply (proj1 (payment_status_predicts_checkout sample_is_payout_ready
                  (list string) nat nat sample_rest_of_the_existing_logic
                  sample_new_world sample_new_product 1000 []
                  eq_refl)).
  reflexivity.
Defined.

Lemma proposed_banner_counts_missing_steps_witness :
  length (filter DesignDoc.completed
            (DesignDoc.setup_steps sample_organization_schema
               sample_payment_status))
  + length (missing_steps sample_payment_status) = 3.
Proof.
  apply (proposed_banner_counts_missing_steps sample_is_payout_ready
           sample_new_organization (Some sample_pending_user)
           sample_organization_schema sample_payment_status).
  reflexivity.
Defined.

Lemma proposed_banner_steps_reflect_state_witness :
  exists details_done account_done identity_done : bool,
    map DesignDoc.completed
      (DesignDoc.setup_steps sample_organization_schema sample_payment_status)
    = [details_done; account_done; identity_done]
    /\ (details_done = true
        <-> details_non_empty sample_new_organization
            /\ details_submitted sample_new_organization)
    /\ (account_done = true
        <-> has_payout_ready_account sample_is_payout_ready
              sample_new_organization)
    /\ (identity_done = true
        <-> identity_verification_status sample_pending_user = verified).
Proof.
  apply (proposed_banner_steps_reflect_state sample_is_payout_ready
           sample_new_organization sample_pending_user
           sample_organization_schema sample_payment_status).
  reflexivity.
Defined.

Lemma proposed_banner_active_organization_open_step_witness :
  exists view,
    DesignDoc.OrganizationSetupBanner sample_organization_schema
      (sample_query_of sample_unfinished_world) = Some view
    /\ DesignDoc.completedSteps view < DesignDoc.totalSteps view.
Proof.
  eexists. split; [reflexivity | ].
  eapply (proposed_banner_active_organization_open_step
            sample_is_payout_ready (list string) sample_unfinished_world
            sample_organization_schema
            (sample_query_of sample_unfinished_world));
    reflexivity.
Defined.

Lemma setup_banner_on_endpoint_response_witness :
  OrganizationSetupBanner sample_organization_schema
    (sample_query_of sample_ready_world) = None
  /\ exists view,
       OrganizationSetupBanner sample_organization_schema
         (sample_query_of sample_new_world) = Some view
       /\ completedSteps view = 3
       /\ totalSteps view = 3
       /\ headline view = "You're all set! Ready to accept payments."
       /\ call_to_action view = None
       /\ Forall (fun row => isActive row = false) (rows view).
Proof.
  split.
  - apply (proj1 (setup_banner_on_endpoint_response sample_is_payout_ready
                    (list string) sample_ready_world
                    sample_organization_schema
                    (sample_query_of sample_ready_world)
                    eq_refl eq_refl)).
    reflexivity.
  - apply (proj2 (setup_banner_on_endpoint_response sample_is_payout_ready
                    (list string) sample_new_world
                    sample_organization_schema
                    (sample_query_of sample_new_world)
                    eq_refl eq_refl)).
    reflexivity.
Defined.

Example setup_banner_integration_view :
  option_map (fun view => (completedSteps view, currentStepIndex view,
                           headline view, map isActive (rows view),
                           call_to_action view))
    (OrganizationSetupBanner sample_organization_schema
       sample_integration_query)
  = Some (1, 1%Z, "1 of 3 steps completed to start accepting payments",
          [false; true; false],
          Some (Some "Integrate Polar", "/dashboard/acme/finance/account")).
Proof. reflexivity. Qed.

Lemma setup_banner_finished_views_witness :
  exists view,
    OrganizationSetupBanner sample_organization_schema
      sample_integration_query = Some view
    /\ totalSteps view = 3.
Proof.
  eexists. split; [reflexivity | ].
  eapply (setup_banner_finished_views sample_organization_schema
            sample_integration_query).
  reflexivity.
Defined.

Lemma setup_banner_current_step_witness :
  exists view step,
    OrganizationSetupBanner sample_organization_schema
      sample_integration_query = Some view
    /\ array_get (steps view) (currentStepIndex view) = Some step
    /\ completed step = false
    /\ Forall (fun earlier => completed earlier = true)
         (firstn (Z.to_nat (currentStepIndex view)) (steps view))
    /\ call_to_action view = Some (Some (label step), href step).
Proof.
  destruct (setup_banner_current_step sample_organization_schema
              sample_integration_query _ eq_refl) as (step & H).
  - discriminate.
  - eexists. exists step. split; [reflexivity | exact H].
Defined.

Lemma setup_banner_active_row_witness :
  exists view row,
    OrganizationSetupBanner sample_organization_schema
      sample_integration_query = Some view
    /\ nth_error (rows view) 1 = Some row
    /\ (isActive row = true <-> Z.of_nat 1 = currentStepIndex view).
Proof.
  eexists. eexists. split; [reflexivity | ]. split; [reflexivity | ].
  eapply (setup_banner_active_row sample_organization_schema
            sample_integration_query); reflexivity.
Defined.

Lemma checkout_always_shows_product_and_form_witness :
  In CheckoutPWYWForm
    (components (Checkout sample_page_props sample_legacy_checkout))
  /\ length (checkout_forms
               (Checkout sample_embed_props sample_blocked_checkout)) = 1.
Proof.
  split.
  - apply (checkout_always_shows_product_and_form sample_page_props
             sample_legacy_checkout).
    reflexivity.
  - apply (checkout_always_shows_product_and_form sample_embed_props
             sample_blocked_checkout).
Defined.

Lemma checkout_layout_witness :
  ~ In CheckoutCard
      (components (Checkout sample_embed_props sample_blocked_checkout))
  /\ In CheckoutCard
       (components (Checkout sample_page_props sample_blocked_checkout)).
Proof.
  split.
  - apply (proj1 (checkout_layout sample_embed_props
                    sample_blocked_checkout)).
    reflexivity.
  - apply (proj2 (checkout_layout sample_page_props
                    sample_blocked_checkout)).
    discriminate.
Defined.

Lemma checkout_banner_comes_first_witness :
  exists before after,
    components (Checkout sample_page_props sample_blocked_checkout)
    = before ++ OrganizationNotReadyBanner :: after
    /\ Forall (fun c => c = ShadowBox \/ c = ShadowBoxOnMd \/ c = div) before
    /\ In CheckoutProductInfo after
    /\ In (CheckoutForm true) after.
Proof.
  apply (checkout_banner_comes_first sample_page_props
           sample_blocked_checkout).
  reflexivity.
Defined.

Lemma proposed_checkout_check_blocks_more_witness :
  (exists e,
      DesignDoc.checkout_not_ready_return sample_proposed_blocked_checkout
      = Some e
      /\ banner_count e = 1
      /\ checkout_forms e = [])
  /\ ((exists e,
          DesignDoc.checkout_not_ready_return sample_proposed_legacy_checkout
          = Some e
          /\ banner_count e = 1
          /\ checkout_forms e = [])
      /\ banner_count (Checkout sample_page_props sample_legacy_checkout) = 0
      /\ checkout_forms (Checkout sample_page_props sample_legacy_checkout)
         = [false]).
Proof.
  split.
  - apply (proj1 (proposed_checkout_check_blocks_more sample_page_props
                    sample_blocked_checkout
                    sample_proposed_blocked_checkout eq_refl)).
    reflexivity.
  - apply (proj1 (proj2 (proposed_checkout_check_blocks_more
                           sample_page_props sample_legacy_checkout
                           sample_proposed_legacy_checkout eq_refl))).
    + reflexivity.
    + discriminate.
Defined.

Lemma confirm_failure_witness :
  confirm (fun token : string => token) sample__confirm
    sample_checkoutConfirmedRedirect sample_blocked_checkout
    "" (Some tt) (Some tt) sample_page
  = (inl (ExpiredCheckoutError "checkout expired"),
     {| fullLoading := false; reloads := 1; remote := ["confirm"] |})
  /\ confirm (fun token : string => token) sample__confirm
       sample_checkoutConfirmedRedirect sample_blocked_checkout
       "token" None (Some tt) sample_page
     = (inl (OtherError "Error" "no payment provider"),
        {| fullLoading := false; reloads := 0; remote := ["confirm"] |}).
Proof.
  split.
  - apply (confirm_failure (list string) string unit unit string
             (fun token => token) sample__confirm
             sample_checkoutConfirmedRedirect sample_blocked_checkout
             "" (Some tt) (Some tt) sample_page).
    reflexivity.
  - apply (confirm_failure (list string) string unit unit string
             (fun token => token) sample__confirm
             sample_checkoutConfirmedRedirect sample_blocked_checkout
             "token" None (Some tt) sample_page).
    reflexivity.
Defined.

Lemma confirm_success_witness :
  confirm (fun token : string => token) sample__confirm
    sample_checkoutConfirmedRedirect sample_blocked_checkout
    "token" (Some tt) (Some tt) sample_page
  = (inr "token",
     {| fullLoading := true;
        reloads := 0;
        remote := ["redirect with token"; "confirm"] |}).
Proof.
  apply (confirm_success (list string) string unit unit string
           (fun token => token) sample__confirm
           sample_checkoutConfirmedRedirect sample_blocked_checkout
           "token" (Some tt) (Some tt) sample_page "token" ["confirm"]).
  reflexivity.
Defined.
